(** * The kvm2 docker-machine driver: lifecycle operations of pkg/kvm/kvm.go

    A shallow embedding of [Driver.GetState], [Driver.GetIP], [Driver.Start],
    [Driver.Create], [Driver.Stop] and [Driver.Remove].  The hypervisor, the
    disk provisioner and the SSH probe are collaborators of the driver: they
    are taken as an arbitrary transition system over a world type [W].  Every
    call the driver makes to a collaborator is appended to a call log, so that
    "never calls X" and "calls X exactly n times" are statements about the
    log. *)

From Stdlib Require Import ZArith.
From stdpp Require Import gmap strings list.

Local Open Scope string_scope.
Local Open Scope Z_scope.
Local Open Scope list_scope.

(** ** Caller-facing lifecycle states (libmachine/state) *)

Module state.

Inductive State : Type :=
| None_
| Running
| Paused
| Saved
| Stopped
| Stopping
| Starting
| Error
| Timeout.

Definition eqb (a b : State) : bool :=
  match a, b with
  | None_, None_ | Running, Running | Paused, Paused | Saved, Saved
  | Stopped, Stopped | Stopping, Stopping | Starting, Starting
  | Error, Error | Timeout, Timeout => true
  | _, _ => false
  end.

End state.

(** ** Native domain states (libvirt-go)

    [libvirt.DomainState] is a Go integer type; the constants below carry the
    values of libvirt's [virDomainState] enumeration, in the order in which
    the comment of [GetState] lists them.  Every other integer is a native
    value the driver does not recognise. *)

Module libvirt.

Definition DomainState : Type := Z.

Definition DOMAIN_NOSTATE : DomainState := 0.
Definition DOMAIN_RUNNING : DomainState := 1.
Definition DOMAIN_BLOCKED : DomainState := 2.
Definition DOMAIN_PAUSED : DomainState := 3.
Definition DOMAIN_SHUTDOWN : DomainState := 4.
Definition DOMAIN_SHUTOFF : DomainState := 5.
Definition DOMAIN_CRASHED : DomainState := 6.
Definition DOMAIN_PMSUSPENDED : DomainState := 7.

Definition known : list DomainState :=
  [DOMAIN_NOSTATE; DOMAIN_RUNNING; DOMAIN_BLOCKED; DOMAIN_PAUSED;
   DOMAIN_SHUTDOWN; DOMAIN_SHUTOFF; DOMAIN_CRASHED; DOMAIN_PMSUSPENDED].

End libvirt.

(** ** Errors

    [errors.New], [errors.Wrap] and the one [fmt.Errorf] of [Stop], whose
    argument is the lifecycle state it prints.  [ErrExternal] stands for an
    error value handed back by a collaborator. *)

Inductive error : Type :=
| ErrExternal (code : Z)
| ErrNew (msg : string)
| ErrWrap (cause : error) (msg : string)
| ErrErrorf (format : string) (arg : state.State).

(** ** The state translator: the [switch] of [GetState], case by case *)

Definition translate (libvirtState : libvirt.DomainState) : state.State * option error :=
  if (libvirtState =? libvirt.DOMAIN_RUNNING) || (libvirtState =? libvirt.DOMAIN_SHUTDOWN)
  then (state.Running, None)
  else if (libvirtState =? libvirt.DOMAIN_BLOCKED) || (libvirtState =? libvirt.DOMAIN_CRASHED)
  then (state.Error, None)
  else if libvirtState =? libvirt.DOMAIN_PAUSED
  then (state.Paused, None)
  else if libvirtState =? libvirt.DOMAIN_SHUTOFF
  then (state.Stopped, None)
  else if libvirtState =? libvirt.DOMAIN_PMSUSPENDED
  then (state.Saved, None)
  else if libvirtState =? libvirt.DOMAIN_NOSTATE
  then (state.None_, None)
  else (state.None_, None).

(** ** The local file system, as far as [Create] looks at it

    A path is a cleaned absolute path, held as its components with the
    innermost directory first: ["/a/b/c"] is [["c"; "b"; "a"]] and ["/"] is
    [[]], so that [filepath.Dir] is the tail.  (For a relative store path the
    loop of [Create] would never meet ["/"]; docker-machine hands the driver an
    absolute one.)  [os.Stat] reports and [os.Chmod] stores the whole mode
    word; [os.Stat] fails on a directory that is not there and [os.Chmod] is
    refused on a directory the caller does not own. *)

Abbreviation path := (list string).

(** The elements of a path string between its slashes. *)
Fixpoint split_slash (s : string) : list string :=
  match s with
  | EmptyString => [EmptyString]
  | String c rest =>
      if String.eqb (String c EmptyString) "/" then EmptyString :: split_slash rest
      else match split_slash rest with
           | [] => [String c EmptyString]
           | first :: others => String c first :: others
           end
  end.

(** One element further, as [filepath.Clean] reads it: an empty element and
    ["."] stay where they are, [".."] leaves the directory (and stays at the
    root there), a name goes into the directory of that name. *)
Definition enter (dir : path) (elem : string) : path :=
  if String.eqb elem "" then dir
  else if String.eqb elem "." then dir
  else if String.eqb elem ".." then tail dir
  else elem :: dir.

(** [filepath.Join(base, elem...)] for a cleaned absolute [base]. *)
Definition filepath_Join (base : path) (elem : list string) : path :=
  fold_left (fun dir e => fold_left enter (split_slash e) dir) elem base.

Record FileInfo : Type := { Mode : Z; chmod_permitted : bool }.

Abbreviation FileSystem := (gmap path FileInfo).

Definition ENOENT : error := ErrExternal 2.
Definition EPERM : error := ErrExternal 1.

Definition os_Stat (dir : path) (fs : FileSystem) : Z + error :=
  match fs !! dir with
  | Some info => inl (Mode info)
  | None => inr ENOENT
  end.

Definition os_Chmod (dir : path) (mode : Z) (fs : FileSystem) : FileSystem * option error :=
  match fs !! dir with
  | Some info =>
      if chmod_permitted info
      then (<[dir := {| Mode := mode; chmod_permitted := true |}]> fs, None)
      else (fs, Some EPERM)
  | None => (fs, Some ENOENT)
  end.

(** What one visit of the walk of [Create] leaves in the entry of a
    directory: [mode | 0011] when the masked mode is not 1 and the caller may
    change the mode, the entry as it was otherwise. *)
Definition walked (info : FileInfo) : FileInfo :=
  if chmod_permitted info && negb (Z.land (Mode info) 9 =? 1)
  then {| Mode := Z.lor (Mode info) 9; chmod_permitted := true |}
  else info.

(** The directories a walk from [dir] visits: [dir] and its ancestors below
    the root. *)
Definition on_walk (p dir : path) : Prop := p <> [] /\ p `suffix_of` dir.

(** The walk from [dir] gets as far as [p]: [os.Stat] finds every directory
    from [dir] up to [p], [p] included. *)
Fixpoint reached (fs : FileSystem) (p dir : path) : Prop :=
  match dir with
  | [] => False
  | _ :: parent => is_Some (fs !! dir) /\ (p = dir \/ reached fs p parent)
  end.

(** ** The driver record and the calls it makes *)

Record Driver : Type := {
  MachineName : string;
  StorePath : path;
  PrivateNetwork : string;
  Boot2DockerURL : string;
  DiskSize : Z;
  IPAddress : string
}.

Definition with_IPAddress (ip : string) (d : Driver) : Driver :=
  {| MachineName := MachineName d; StorePath := StorePath d;
     PrivateNetwork := PrivateNetwork d; Boot2DockerURL := Boot2DockerURL d;
     DiskSize := DiskSize d; IPAddress := ip |}.

(** [d.ResolveStorePath(".")], which libmachine computes as
    [filepath.Join(d.StorePath, "machines", d.MachineName, ".")]. *)
Definition ResolveStorePath (d : Driver) : path :=
  filepath_Join (StorePath d) ["machines"; MachineName d; "."].

Inductive Call : Type :=
| CgetConnection
| CconnClose
| CLookupNetworkByName (name : string)
| CLookupDomainByName (name : string)
| CnetDestroy
| CnetUndefine
| CgetDomain
| CcloseDomain
| CdomGetState
| CdomCreate
| CdomShutdown
| CdomDestroy
| CdomUndefine
| CdomFree
| ClookupIP
| CcreateNetwork
| CcreateDomain
| CMakeDiskImage (url : string) (size : Z)
| CWaitForSSH
| CSleep (seconds : Z)
| CMkdirAll (dir : path) (perm : Z)
| CStat (dir : path)
| CChmod (dir : path) (mode : Z).

#[global] Instance Call_eq_dec : EqDecision Call.
Proof. solve_decision. Defined.

(** The calls of the directory walk. *)
Definition fs_call (c : Call) : bool :=
  match c with
  | CStat _ | CChmod _ _ => true
  | _ => false
  end.

(** How often a call occurs in a log. *)
Fixpoint occurrences (c : Call) (log : list Call) : nat :=
  match log with
  | [] => O
  | c' :: rest => if decide (c' = c) then S (occurrences c rest) else occurrences c rest
  end.

(** ** The collaborators

    The functions of the repository that live outside kvm.go ([getConnection],
    [getDomain], [closeDomain], [lookupIP], [createNetwork], [createDomain],
    [MakeDiskImage]), the libvirt handles, [drivers.WaitForSSH],
    [time.Sleep] and [os.MkdirAll].  Each is a transition of the outside
    world [W] that may read the driver record; a lookup hands back whether the
    handle is non-nil together with the error, as the Go pair does.  What a
    collaborator does with the driver it is handed ([drivers.WaitForSSH] asks
    it for its SSH host, port and user) is part of that transition: such
    calls are not in the log, which holds the calls made by the statements of
    kvm.go, and the driver record holds only the fields that the lifecycle
    operations of kvm.go read or write. *)

Record Collaborators (W : Type) : Type := {
  getConnection : W -> W * option error;
  conn_Close : W -> W;
  conn_LookupNetworkByName : string -> W -> W * (bool * option error);
  conn_LookupDomainByName : string -> W -> W * (bool * option error);
  net_Destroy : W -> W * option error;
  net_Undefine : W -> W * option error;
  getDomain : Driver -> W -> W * option error;
  closeDomain : W -> W;
  dom_GetState : W -> W * (libvirt.DomainState + error);
  dom_Create : W -> W * option error;
  dom_Shutdown : W -> W * option error;
  dom_Destroy : W -> W * option error;
  dom_Undefine : W -> W * option error;
  dom_Free : W -> W;
  lookupIP : Driver -> W -> W * (string + error);
  createNetwork : Driver -> W -> W * option error;
  createDomain : Driver -> W -> W * option error;
  MakeDiskImage : Driver -> string -> Z -> W -> W * option error;
  WaitForSSH : Driver -> W -> W * option error;
  time_Sleep : Z -> W -> W;
  os_MkdirAll : path -> Z -> FileSystem -> FileSystem * option error
}.

Arguments getConnection {W}.
Arguments conn_Close {W}.
Arguments conn_LookupNetworkByName {W}.
Arguments conn_LookupDomainByName {W}.
Arguments net_Destroy {W}.
Arguments net_Undefine {W}.
Arguments getDomain {W}.
Arguments closeDomain {W}.
Arguments dom_GetState {W}.
Arguments dom_Create {W}.
Arguments dom_Shutdown {W}.
Arguments dom_Destroy {W}.
Arguments dom_Undefine {W}.
Arguments dom_Free {W}.
Arguments lookupIP {W}.
Arguments createNetwork {W}.
Arguments createDomain {W}.
Arguments MakeDiskImage {W}.
Arguments WaitForSSH {W}.
Arguments time_Sleep {W}.
Arguments os_MkdirAll {W}.

(** ** Runs: the driver, the outside world, the file system and the log *)

Record Run (W : Type) : Type := {
  drv : Driver;
  world : W;
  files : FileSystem;
  calls : list Call
}.

Arguments Build_Run {W}.
Arguments drv {W}.
Arguments world {W}.
Arguments files {W}.
Arguments calls {W}.

Definition M (W A : Type) : Type := Run W -> Run W * A.

Definition ret {W A} (a : A) : M W A := fun r => (r, a).

Definition bind {W A B} (m : M W A) (k : A -> M W B) : M W B :=
  fun r => let (r', a) := m r in k a r'.

Declare Scope run_scope.
Delimit Scope run_scope with run.
Notation "x <- m ;; k" := (bind m (fun x => k))
  (at level 100, m at next level, right associativity) : run_scope.
Notation "m ;;; k" := (bind m (fun _ => k))
  (at level 100, right associativity) : run_scope.
Local Open Scope run_scope.

Section Lifecycle.

Context {W : Type} (hv : Collaborators W).

(** A logged call to a collaborator that reads the driver. *)
Definition extern {A} (c : Call) (f : Driver -> W -> W * A) : M W A :=
  fun r =>
    let (w', a) := f (drv r) (world r) in
    ({| drv := drv r; world := w'; files := files r; calls := calls r ++ [c] |}, a).

(** A logged call that hands nothing back. *)
Definition extern_ (c : Call) (f : W -> W) : M W unit :=
  extern c (fun _ w => (f w, tt)).

(** A logged call on the file system. *)
Definition onFiles {A} (c : Call) (f : FileSystem -> FileSystem * A) : M W A :=
  fun r =>
    let (fs', a) := f (files r) in
    ({| drv := drv r; world := world r; files := fs'; calls := calls r ++ [c] |}, a).

Definition getDriver : M W Driver := fun r => (r, drv r).

(** [d.IPAddress = ip] *)
Definition setIPAddress (ip : string) : M W unit :=
  fun r =>
    ({| drv := with_IPAddress ip (drv r); world := world r; files := files r;
        calls := calls r |}, tt).

(** [defer cleanup] followed by [body]: the clean-up runs when the function
    returns, after the returned value is fixed. *)
Definition defer {A} (cleanup : M W unit) (body : M W A) : M W A :=
  a <- body ;; cleanup ;;; ret a.

(** [if err := step; err != nil { return wrap(err) }], then [rest]. *)
Definition orReturn (step : M W (option error)) (wrap : error -> error)
    (rest : M W (option error)) : M W (option error) :=
  err <- step ;;
  match err with
  | Some e => ret (Some (wrap e))
  | None => rest
  end.

(** *** GetState *)
Definition GetState : M W (state.State * option error) :=
  err <- extern CgetDomain (getDomain hv) ;;
  match err with
  | Some e => ret (state.None_, Some (ErrWrap e "getting connection"))
  | None =>
      defer (extern_ CcloseDomain (closeDomain hv))
        (res <- extern CdomGetState (fun _ => dom_GetState hv) ;;
         match res with
         | inr e => ret (state.None_, Some (ErrWrap e "getting domain state"))
         | inl libvirtState => ret (translate libvirtState)
         end)
  end.

(** *** GetIP *)
Definition GetIP : M W (string * option error) :=
  res <- GetState ;;
  let '(s, err) := res in
  match err with
  | Some e => ret ("", Some (ErrWrap e "machine in unknown state"))
  | None =>
      if negb (state.eqb s state.Running)
      then ret ("", Some (ErrNew "host is not running"))
      else
        found <- extern ClookupIP (lookupIP hv) ;;
        match found with
        | inr e => ret ("", Some (ErrWrap e "getting IP"))
        | inl ip => ret (ip, None)
        end
  end.

(** *** Start *)

(** The loop [for i := 0; i <= 40; i++] of [Start], with [iterations] passes
    left to run.  [Some e] is the [return] inside the loop; [None] is the loop
    left by [break] or by its condition. *)
Fixpoint waitForIP (iterations : nat) : M W (option error) :=
  match iterations with
  | O => ret None
  | S remaining =>
      res <- GetIP ;;
      let '(ip, err) := res in
      match err with
      | Some e => ret (Some (ErrWrap e "getting ip during machine start"))
      | None =>
          if String.eqb ip ""
          then extern_ (CSleep 3) (time_Sleep hv 3) ;;; waitForIP remaining
          else setIPAddress ip ;;; ret None
      end
  end.

(** The values [0 .. 40] of [i]. *)
Definition ipAttempts : nat := Z.to_nat (40 - 0 + 1).

Definition Start : M W (option error) :=
  err <- extern CgetDomain (getDomain hv) ;;
  match err with
  | Some e => ret (Some (ErrWrap e "getting connection"))
  | None =>
      defer (extern_ CcloseDomain (closeDomain hv))
        (orReturn (extern CdomCreate (fun _ => dom_Create hv))
           (fun e => ErrWrap e "Error creating VM")
        (orReturn (waitForIP ipAttempts) (fun e => e)
        (d <- getDriver ;;
         if String.eqb (IPAddress d) ""
         then ret (Some (ErrNew "Machine didn't return an IP after 120 seconds"))
         else
           err <- extern CWaitForSSH (WaitForSSH hv) ;;
           match err with
           | Some e =>
               setIPAddress "" ;;;
               ret (Some (ErrWrap e "SSH not available after waiting"))
           | None => ret None
           end)))
  end.

(** *** Create *)

(** The loop [for dir := d.ResolveStorePath("."); dir != "/"; dir = filepath.Dir(dir)].
    [0011] is octal: the group and the other execute bit. *)
Fixpoint permWalk (dir : path) : M W (option error) :=
  match dir with
  | [] => ret None
  | _ :: parent =>
      info <- onFiles (CStat dir) (fun fs => (fs, os_Stat dir fs)) ;;
      match info with
      | inr e => ret (Some e)
      | inl mode =>
          (if negb (Z.land mode 9 =? 1)
           then
             let mode' := Z.lor mode 9 in
             onFiles (CChmod dir mode') (os_Chmod dir mode') ;;; ret tt
           else ret tt) ;;;
          permWalk parent
      end
  end.

Definition Create : M W (option error) :=
  orReturn (extern CcreateNetwork (createNetwork hv))
    (fun e => ErrWrap e "creating network")
  (d <- getDriver ;;
   orReturn
     (onFiles (CMkdirAll (ResolveStorePath d) 493)
        (os_MkdirAll hv (ResolveStorePath d) 493))
     (fun e => ErrWrap e "Error making store path directory")
  (orReturn (permWalk (ResolveStorePath d)) (fun e => e)
  (orReturn
     (extern (CMakeDiskImage (Boot2DockerURL d) (DiskSize d))
        (fun d' => MakeDiskImage hv d' (Boot2DockerURL d) (DiskSize d)))
     (fun e => ErrWrap e "Error creating disk")
  (orReturn (extern CcreateDomain (createDomain hv))
     (fun e => ErrWrap e "creating domain")
  (defer (extern_ CdomFree (dom_Free hv)) Start))))).

(** *** Stop *)

(** The loop [for i := 0; i < 60; i++] of [Stop].  [Some r] is a [return r]
    inside the loop, [None] the loop running out. *)
Fixpoint waitForStop (iterations : nat) : M W (option (option error)) :=
  match iterations with
  | O => ret None
  | S remaining =>
      res <- GetState ;;
      let '(s, err) := res in
      match err with
      | Some e => ret (Some (Some (ErrWrap e "Error getting state of VM")))
      | None =>
          if state.eqb s state.Stopped
          then ret (Some None)
          else extern_ (CSleep 1) (time_Sleep hv 1) ;;; waitForStop remaining
      end
  end.

Definition stopAttempts : nat := Z.to_nat (60 - 0).

Definition Stop : M W (option error) :=
  setIPAddress "" ;;;
  res <- GetState ;;
  let '(s, err) := res in
  match err with
  | Some e => ret (Some (ErrWrap e "getting state of VM"))
  | None =>
      let couldNotStop : M W (option error) :=
        ret (Some (ErrErrorf "Could not stop VM, current state %s" s)) in
      if negb (state.eqb s state.Stopped)
      then
        err <- extern CgetDomain (getDomain hv) ;;
        defer (extern_ CcloseDomain (closeDomain hv))
          match err with
          | Some e => ret (Some (ErrWrap e "getting connection"))
          | None =>
              orReturn (extern CdomShutdown (fun _ => dom_Shutdown hv))
                (fun e => ErrWrap e "stopping vm")
              (out <- waitForStop stopAttempts ;;
               match out with
               | Some r => ret r
               | None => couldNotStop
               end)
          end
      else couldNotStop
  end.

(** *** Remove *)

Definition Remove : M W (option error) :=
  err <- extern CgetConnection (fun _ => getConnection hv) ;;
  match err with
  | Some e => ret (Some (ErrWrap e "getting connection"))
  | None =>
      defer (extern_ CconnClose (conn_Close hv))
        (d <- getDriver ;;
         found <- extern (CLookupNetworkByName (PrivateNetwork d))
                    (fun _ => conn_LookupNetworkByName hv (PrivateNetwork d)) ;;
         let '(network, _) := found in
         (if network
          then extern CnetDestroy (fun _ => net_Destroy hv) ;;;
               extern CnetUndefine (fun _ => net_Undefine hv) ;;; ret tt
          else ret tt) ;;;
         found <- extern (CLookupDomainByName (MachineName d))
                    (fun _ => conn_LookupDomainByName hv (MachineName d)) ;;
         let '(dom, _) := found in
         (if dom
          then extern CdomDestroy (fun _ => dom_Destroy hv) ;;;
               extern CdomUndefine (fun _ => dom_Undefine hv) ;;; ret tt
          else ret tt) ;;;
         ret None)
  end.

(** *** Runs met along the way *)

(** After [d.IPAddress = ""], where [Stop] begins. *)
Definition cleared (r : Run W) : Run W := fst (setIPAddress "" r).

(** After [d.IPAddress = ip]. *)
Definition recorded (ip : string) (r : Run W) : Run W := fst (setIPAddress ip r).

(** After [time.Sleep(3 * time.Second)]. *)
Definition slept3 (r : Run W) : Run W :=
  fst (extern_ (CSleep 3) (time_Sleep hv 3) r).

(** Every one of the next [n] attempts of the loop of [Start] gets an empty
    address and no error from [GetIP]. *)
Fixpoint always_empty (n : nat) (r : Run W) : Prop :=
  match n with
  | O => True
  | S k => exists r', GetIP r = (r', ("", None)) /\ always_empty k (slept3 r')
  end.

(** After the deferred [closeDomain]. *)
Definition closed (r : Run W) : Run W :=
  fst (extern_ CcloseDomain (closeDomain hv) r).

(** Where [Start] begins to poll: domain handle obtained, domain created. *)
Definition booted (r : Run W) (w : W) : Run W :=
  {| drv := drv r; world := w; files := files r;
     calls := calls r ++ [CgetDomain; CdomCreate] |}.

(** Where the walk of [Create] begins: network ensured, store directory made. *)
Definition prepared (r : Run W) (w : W) (fs : FileSystem) : Run W :=
  {| drv := drv r; world := w; files := fs;
     calls := calls r ++ [CcreateNetwork; CMkdirAll (ResolveStorePath (drv r)) 493] |}.

(** After the walk has dealt with [dir], whose entry is [info]. *)
Definition visit (dir : path) (info : FileInfo) (r : Run W) : Run W :=
  if negb (Z.land (Mode info) 9 =? 1)
  then {| drv := drv r; world := world r;
          files := fst (os_Chmod dir (Z.lor (Mode info) 9) (files r));
          calls := calls r ++ [CStat dir; CChmod dir (Z.lor (Mode info) 9)] |}
  else {| drv := drv r; world := world r; files := files r;
          calls := calls r ++ [CStat dir] |}.

End Lifecycle.

Arguments GetState {W} hv.
Arguments GetIP {W} hv.
Arguments waitForIP {W} hv.
Arguments Start {W} hv.
Arguments permWalk {W}.
Arguments Create {W} hv.
Arguments waitForStop {W} hv.
Arguments Stop {W} hv.
Arguments Remove {W} hv.
Arguments cleared {W}.
Arguments recorded {W}.
Arguments slept3 {W} hv.
Arguments always_empty {W} hv.
Arguments closed {W} hv.
Arguments booted {W}.
Arguments prepared {W}.
Arguments visit {W}.

(** ** A simulated hypervisor

    One concrete outside world, used to run the driver on explicit inputs. *)

Module Mock.

Record World : Type := {
  connect_ok : bool;                 (* the libvirt socket can be reached *)
  network_defined : bool;
  domain_defined : bool;
  native : libvirt.DomainState;      (* what dom.GetState reports *)
  boots_to : libvirt.DomainState;    (* native state after dom.Create *)
  lease_after : nat;                 (* address lookups that still come back empty *)
  lease : string;
  disk_ok : bool;
  ssh_ok : bool
}.

Definition set_native (s : libvirt.DomainState) (w : World) : World :=
  {| connect_ok := connect_ok w; network_defined := network_defined w;
     domain_defined := domain_defined w; native := s; boots_to := boots_to w;
     lease_after := lease_after w; lease := lease w; disk_ok := disk_ok w;
     ssh_ok := ssh_ok w |}.

Definition set_lease_after (n : nat) (w : World) : World :=
  {| connect_ok := connect_ok w; network_defined := network_defined w;
     domain_defined := domain_defined w; native := native w; boots_to := boots_to w;
     lease_after := n; lease := lease w; disk_ok := disk_ok w; ssh_ok := ssh_ok w |}.

Definition set_network_defined (b : bool) (w : World) : World :=
  {| connect_ok := connect_ok w; network_defined := b;
     domain_defined := domain_defined w; native := native w; boots_to := boots_to w;
     lease_after := lease_after w; lease := lease w; disk_ok := disk_ok w;
     ssh_ok := ssh_ok w |}.

Definition set_domain_defined (b : bool) (w : World) : World :=
  {| connect_ok := connect_ok w; network_defined := network_defined w;
     domain_defined := b; native := native w; boots_to := boots_to w;
     lease_after := lease_after w; lease := lease w; disk_ok := disk_ok w;
     ssh_ok := ssh_ok w |}.

Definition unreachable : error := ErrExternal 38.
Definition noDomain : error := ErrExternal 42.
Definition noNetwork : error := ErrExternal 43.
Definition diskFailure : error := ErrExternal 28.
Definition sshTimeout : error := ErrExternal 110.

Definition lookup (defined : bool) (missing : error) : bool * option error :=
  if defined then (true, None) else (false, Some missing).

Definition ModeDir : Z := 2147483648.

Fixpoint MkdirAll (dir : path) (perm : Z) (fs : FileSystem) : FileSystem * option error :=
  match dir with
  | [] => (fs, None)
  | _ :: parent =>
      let (fs', err) := MkdirAll parent perm fs in
      match err, fs' !! dir with
      | Some e, _ => (fs', Some e)
      | None, Some _ => (fs', None)
      | None, None =>
          (<[dir := {| Mode := Z.lor ModeDir perm; chmod_permitted := true |}]> fs', None)
      end
  end.

Definition hv : Collaborators World := {|
  getConnection w := (w, if connect_ok w then None else Some unreachable);
  conn_Close w := w;
  conn_LookupNetworkByName _ w := (w, lookup (network_defined w) noNetwork);
  conn_LookupDomainByName _ w := (w, lookup (domain_defined w) noDomain);
  net_Destroy w := (w, None);
  net_Undefine w := (set_network_defined false w, None);
  getDomain _ w :=
    (w, if negb (connect_ok w) then Some unreachable
        else if domain_defined w then None else Some noDomain);
  closeDomain w := w;
  dom_GetState w := (w, inl (native w));
  dom_Create w := (set_native (boots_to w) w, None);
  dom_Shutdown w := (set_native libvirt.DOMAIN_SHUTOFF w, None);
  dom_Destroy w := (set_native libvirt.DOMAIN_SHUTOFF w, None);
  dom_Undefine w := (set_domain_defined false w, None);
  dom_Free w := w;
  lookupIP _ w :=
    match lease_after w with
    | O => (w, inl (lease w))
    | S n => (set_lease_after n w, inl "")
    end;
  createNetwork _ w := (set_network_defined true w, None);
  createDomain _ w := (set_domain_defined true w, None);
  MakeDiskImage _ _ _ w := (w, if disk_ok w then None else Some diskFailure);
  WaitForSSH _ w := (w, if ssh_ok w then None else Some sshTimeout);
  time_Sleep _ w := w;
  os_MkdirAll := MkdirAll
|}.

(** A machine that is defined and shut off, on a host where everything works
    and the address appears on the third lookup. *)
Definition healthy : World :=
  {| connect_ok := true; network_defined := true; domain_defined := true;
     native := libvirt.DOMAIN_SHUTOFF; boots_to := libvirt.DOMAIN_RUNNING;
     lease_after := 2; lease := "192.168.39.7"; disk_ok := true; ssh_ok := true |}.

(** A host on which nothing has been created yet. *)
Definition pristine : World :=
  {| connect_ok := true; network_defined := false; domain_defined := false;
     native := libvirt.DOMAIN_NOSTATE; boots_to := libvirt.DOMAIN_RUNNING;
     lease_after := 2; lease := "192.168.39.7"; disk_ok := true; ssh_ok := true |}.

Definition machine : Driver :=
  {| MachineName := "minikube"; StorePath := ["store"];
     PrivateNetwork := "minikube-net"; Boot2DockerURL := "file:///boot2docker.iso";
     DiskSize := 20000; IPAddress := "" |}.

Definition run (d : Driver) (w : World) (fs : FileSystem) : Run World :=
  {| drv := d; world := w; files := fs; calls := [] |}.

(** The store path of [machine], three levels below the root.  The innermost
    directory belongs to the caller and has mode 0700; the middle one belongs
    to the caller and has mode 0701; the outermost one has mode 0640 and
    belongs to somebody else. *)
Definition foreign_store : FileSystem :=
  <[ ["minikube"; "machines"; "store"] :=
       {| Mode := Z.lor ModeDir 448; chmod_permitted := true |} ]>
  (<[ ["machines"; "store"] :=
       {| Mode := Z.lor ModeDir 449; chmod_permitted := true |} ]>
  (<[ ["store"] :=
       {| Mode := Z.lor ModeDir 416; chmod_permitted := false |} ]> ∅)).

(** The store path of [machine] again.  The two inner directories belong to
    the caller and have mode 0700; the outermost one has mode 0710 and
    belongs to somebody else, whose group the caller is in. *)
Definition shared_store : FileSystem :=
  <[ ["minikube"; "machines"; "store"] :=
       {| Mode := Z.lor ModeDir 448; chmod_permitted := true |} ]>
  (<[ ["machines"; "store"] :=
       {| Mode := Z.lor ModeDir 448; chmod_permitted := true |} ]>
  (<[ ["store"] :=
       {| Mode := Z.lor ModeDir 456; chmod_permitted := false |} ]> ∅)).

End Mock.

(** * The rest of kvm.go *)

(** ** Kill, PreCommandCheck and GetURL *)

Section MoreLifecycle.

Context {W : Type} (hv : Collaborators W).

(** [conn.GetLibVersion], a libvirt call the lifecycle operations above do
    not make.  It is a parameter of the two functions that use it; the call
    log has no entry for it. *)
Variable conn_GetLibVersion : W -> W * (Z + error).

(** A call to a collaborator that the log does not record. *)
Definition unlogged {A} (f : W -> W * A) : M W A :=
  fun r =>
    let (w', a) := f (world r) in
    ({| drv := drv r; world := w'; files := files r; calls := calls r |}, a).

Definition Kill : M W (option error) :=
  err <- extern CgetDomain (getDomain hv) ;;
  match err with
  | Some e => ret (Some (ErrWrap e "getting connection"))
  | None =>
      defer (extern_ CcloseDomain (closeDomain hv))
        (extern CdomDestroy (fun _ => dom_Destroy hv))
  end.

Definition PreCommandCheck : M W (option error) :=
  err <- extern CgetConnection (fun _ => getConnection hv) ;;
  match err with
  | Some e =>
      ret (Some (ErrWrap e
        "Error connecting to libvirt socket.  Have you added yourself to the libvirtd group?"))
  | None =>
      libVersion <- unlogged conn_GetLibVersion ;;
      match libVersion with
      | inr e => ret (Some (ErrWrap e "getting libvirt version"))
      | inl _ => ret None
      end
  end.

(** [fmt.Sprintf("tcp://%s:2376", ip)] *)
Definition tcpURL (ip : string) : string :=
  String.append "tcp://" (String.append ip ":2376").

Definition GetURL : M W (string * option error) :=
  err <- PreCommandCheck ;;
  match err with
  | Some e => ret ("", Some (ErrWrap e "getting URL, precheck failed"))
  | None =>
      res <- GetIP hv ;;
      let '(ip, err) := res in
      match err with
      | Some e => ret ("", Some (ErrWrap e "getting URL, could not get IP"))
      | None => if String.eqb ip "" then ret ("", None) else ret (tcpURL ip, None)
      end
  end.

Definition GetSSHHostname : M W (string * option error) := GetIP hv.

(** *** Runs met along the way *)

(** After [time.Sleep(1 * time.Second)]. *)
Definition slept1 (r : Run W) : Run W :=
  fst (extern_ (CSleep 1) (time_Sleep hv 1) r).

(** Every one of the next [n] polls of the loop of [Stop] sees a state other
    than Stopped, without error. *)
Fixpoint still_up (n : nat) (r : Run W) : Prop :=
  match n with
  | O => True
  | S k =>
      exists r' s, GetState hv r = (r', (s, None)) /\ s <> state.Stopped /\
                   still_up k (slept1 r')
  end.

(** [still_up], computed. *)
Fixpoint still_upb (n : nat) (r : Run W) : bool :=
  match n with
  | O => true
  | S k =>
      match GetState hv r with
      | (r', (s, None)) => negb (state.eqb s state.Stopped) && still_upb k (slept1 r')
      | (_, (_, Some _)) => false
      end
  end.

(** Where [Stop] begins to poll: second domain handle obtained, shutdown
    requested. *)
Definition halting (r : Run W) (w : W) : Run W :=
  {| drv := drv r; world := w; files := files r;
     calls := calls r ++ [CgetDomain; CdomShutdown] |}.

(** After [dom.Free()]. *)
Definition freed (r : Run W) : Run W :=
  fst (extern_ CdomFree (dom_Free hv) r).

(** Where [Create] calls [Start]: disk made, domain defined. *)
Definition defined (r : Run W) (w : W) : Run W :=
  {| drv := drv r; world := w; files := files r;
     calls := calls r ++ [CMakeDiskImage (Boot2DockerURL (drv r)) (DiskSize (drv r));
                          CcreateDomain] |}.

End MoreLifecycle.

Arguments unlogged {W A}.
Arguments Kill {W} hv.
Arguments PreCommandCheck {W} hv.
Arguments GetURL {W} hv.
Arguments GetSSHHostname {W} hv.
Arguments slept1 {W} hv.
Arguments still_up {W} hv.
Arguments still_upb {W} hv.
Arguments halting {W}.
Arguments freed {W} hv.
Arguments defined {W}.

(** ** What an operation may touch *)

(** [m] takes every run to one that is [R]-related to it. *)
Definition frames {W A} (R : Run W -> Run W -> Prop) (m : M W A) : Prop :=
  forall r, R r (fst (m r)).

(** The log grows by calls that satisfy [allowed]. *)
Definition log_grows {W} (allowed : Call -> bool) (r r' : Run W) : Prop :=
  exists l, calls r' = calls r ++ l /\ forallb allowed l = true.

(** The driver record is the same. *)
Definition same_driver {W} (r r' : Run W) : Prop := drv r' = drv r.

(** The driver record is the same except, possibly, for [IPAddress]. *)
Definition same_but_IPAddress {W} (r r' : Run W) : Prop :=
  with_IPAddress "" (drv r') = with_IPAddress "" (drv r).

(** The file system is the same. *)
Definition same_files {W} (r r' : Run W) : Prop := files r' = files r.

(** The calls of [GetState]. *)
Definition state_call (c : Call) : bool :=
  match c with
  | CgetDomain | CdomGetState | CcloseDomain => true
  | _ => false
  end.

(** The calls of [GetIP]. *)
Definition ip_call (c : Call) : bool :=
  match c with
  | ClookupIP => true
  | _ => state_call c
  end.

(** The calls of [Start]. *)
Definition start_call (c : Call) : bool :=
  match c with
  | CdomCreate | CWaitForSSH => true
  | CSleep seconds => seconds =? 3
  | _ => ip_call c
  end.

(** The calls of [Stop]. *)
Definition stop_call (c : Call) : bool :=
  match c with
  | CdomShutdown => true
  | CSleep seconds => seconds =? 1
  | _ => state_call c
  end.

(** The calls of [Create]. *)
Definition create_call (c : Call) : bool :=
  match c with
  | CcreateNetwork | CMkdirAll _ _ | CMakeDiskImage _ _ | CcreateDomain | CdomFree => true
  | _ => start_call c || fs_call c
  end.

(** The calls of [Remove]. *)
Definition remove_call (c : Call) : bool :=
  match c with
  | CgetConnection | CconnClose | CLookupNetworkByName _ | CLookupDomainByName _
  | CnetDestroy | CnetUndefine | CdomDestroy | CdomUndefine => true
  | _ => false
  end.

(** The calls of [Kill]. *)
Definition kill_call (c : Call) : bool :=
  match c with
  | CgetDomain | CdomDestroy | CcloseDomain => true
  | _ => false
  end.

(** ** Configuration: NewDriver, GetCreateFlags, SetConfigFromFlags and the
    SSH accessors

    These functions work on the configuration fields of the driver.  The
    record below holds the fields of [Driver] and of the embedded
    [drivers.BaseDriver] that kvm.go reads or writes. *)

Module Config.

Record Driver : Type := {
  MachineName : string;
  StorePath : path;
  SSHUser : string;
  SSHPort : Z;
  IPAddress : string;
  Memory : Z;
  CPU : Z;
  Network : string;
  PrivateNetwork : string;
  DiskSize : Z;
  DiskPath : path;
  Boot2DockerURL : string;
  ISO : path;
  MAC : string
}.

Definition qemusystem : string := "qemu:///system".
Definition defaultPrivateNetworkName : string := "minikube-net".
Definition defaultNetworkName : string := "default".
Definition defaultSSHUser : string := "docker".
Definition isoFilename : string := "boot2docker.iso".

(** [d.ResolveStorePath(file)]: libmachine's
    [filepath.Join(d.StorePath, "machines", d.MachineName, file)]. *)
Definition ResolveStorePath (d : Driver) (file : string) : path :=
  filepath_Join (StorePath d) ["machines"; MachineName d; file].

(** The Go zero value of every field that [NewDriver] does not set. *)
Definition NewDriver (hostName : string) (storePath : path) : Driver :=
  {| MachineName := hostName; StorePath := storePath; SSHUser := "docker";
     SSHPort := 0; IPAddress := ""; Memory := 0; CPU := 0; Network := "";
     PrivateNetwork := ""; DiskSize := 0; DiskPath := []; Boot2DockerURL := "";
     ISO := []; MAC := "" |}.

(** [mcnflag.Flag] *)
Inductive Flag : Type :=
| IntFlag (Name Usage : string) (Value : Z)
| StringFlag (EnvVar Name Usage Value : string).

Definition flagName (f : Flag) : string :=
  match f with
  | IntFlag name _ _ => name
  | StringFlag _ name _ _ => name
  end.

Definition GetCreateFlags : list Flag :=
  [ IntFlag "kvm-memory" "Size of memory for host in MB" 1024;
    IntFlag "kvm-disk-size" "Size of disk for host in MB" 20000;
    IntFlag "kvm-cpu-count" "Number of CPUs" 1;
    StringFlag "" "kvm-network" "Name of network to connect to" "default";
    StringFlag "KVM_BOOT2DOCKER_URL" "kvm-boot2docker-url"
      "The URL of the boot2docker image. Defaults to the latest available version" "";
    StringFlag "" "kvm-cache-mode"
      "Disk cache mode: default, none, writethrough, writeback, directsync, or unsafe"
      "default";
    StringFlag "" "kvm-io-mode" "Disk IO mode: threads, native" "threads";
    StringFlag "KVM_SSH_USER" "kvm-ssh-user" "SSH username" defaultSSHUser ].

(** [drivers.DriverOptions]: the value of a flag by name. *)
Record DriverOptions : Type := {
  Int : string -> Z;
  String : string -> string
}.

Definition SetConfigFromFlags (d : Driver) (flags : DriverOptions) : Driver * option error :=
  let d1 :=
    {| MachineName := MachineName d; StorePath := StorePath d;
       SSHUser := SSHUser d; SSHPort := SSHPort d; IPAddress := IPAddress d;
       Memory := Int flags "kvm-memory";
       CPU := Int flags "kvm-cpu-count";
       Network := String flags "kvm-network";
       PrivateNetwork := PrivateNetwork d;
       DiskSize := Int flags "kvm-disk-size";
       DiskPath := DiskPath d;
       Boot2DockerURL := String flags "kvm-boot2docker-url";
       ISO := ResolveStorePath d isoFilename;
       MAC := MAC d |} in
  ({| MachineName := MachineName d1; StorePath := StorePath d1;
      SSHUser := String flags "kvm-ssh-user"; SSHPort := 22;
      IPAddress := IPAddress d1; Memory := Memory d1; CPU := CPU d1;
      Network := Network d1; PrivateNetwork := PrivateNetwork d1;
      DiskSize := DiskSize d1;
      DiskPath := ResolveStorePath d1 (String.append (MachineName d1) ".img");
      Boot2DockerURL := Boot2DockerURL d1; ISO := ISO d1; MAC := MAC d1 |},
   None).

Definition with_SSHPort (port : Z) (d : Driver) : Driver :=
  {| MachineName := MachineName d; StorePath := StorePath d;
     SSHUser := SSHUser d; SSHPort := port; IPAddress := IPAddress d;
     Memory := Memory d; CPU := CPU d; Network := Network d;
     PrivateNetwork := PrivateNetwork d; DiskSize := DiskSize d;
     DiskPath := DiskPath d; Boot2DockerURL := Boot2DockerURL d; ISO := ISO d;
     MAC := MAC d |}.

Definition with_SSHUser (user : string) (d : Driver) : Driver :=
  {| MachineName := MachineName d; StorePath := StorePath d;
     SSHUser := user; SSHPort := SSHPort d; IPAddress := IPAddress d;
     Memory := Memory d; CPU := CPU d; Network := Network d;
     PrivateNetwork := PrivateNetwork d; DiskSize := DiskSize d;
     DiskPath := DiskPath d; Boot2DockerURL := Boot2DockerURL d; ISO := ISO d;
     MAC := MAC d |}.

Definition GetMachineName (d : Driver) : string := MachineName d.

Definition GetSSHKeyPath (d : Driver) : path := ResolveStorePath d "id_rsa".

Definition GetSSHPort (d : Driver) : Driver * (Z * option error) :=
  let d' := if SSHPort d =? 0 then with_SSHPort 22 d else d in
  (d', (SSHPort d', None)).

Definition GetSSHUsername (d : Driver) : Driver * string :=
  let d' := if String.eqb (SSHUser d) "" then with_SSHUser "docker" d else d in
  (d', SSHUser d').

Definition DriverName : string := "kvm2".

(** The flags [SetConfigFromFlags] asks for. *)
Definition flagsRead : list string :=
  ["kvm-memory"; "kvm-disk-size"; "kvm-cpu-count"; "kvm-network";
   "kvm-boot2docker-url"; "kvm-ssh-user"].

(** Two sets of options give the same value to every flag in [names]. *)
Definition agree_on (names : list string) (f g : DriverOptions) : Prop :=
  forall name, In name names -> Int f name = Int g name /\ String f name = String g name.

(** The options a command line without [kvm-] arguments yields: every
    declared flag at its declared value, anything else at the zero value. *)
Definition defaultOptions : DriverOptions :=
  {| Int name :=
       match List.find (fun f => String.eqb (flagName f) name) GetCreateFlags with
       | Some (IntFlag _ _ v) => v
       | _ => 0
       end;
     String name :=
       match List.find (fun f => String.eqb (flagName f) name) GetCreateFlags with
       | Some (StringFlag _ _ _ v) => v
       | _ => ""
       end |}.

End Config.

(** ** A simulated hypervisor with faults

    The simulated hypervisor above, with three additions: collaborators that
    can be broken one by one, a limit on the domain handles that
    [getDomain] hands out, and a shutdown that takes a number of seconds. *)

Module Lab.

Record World : Type := {
  base : Mock.World;
  handles : nat;          (* domain handles that can still be obtained *)
  shutdown_time : nat     (* seconds left before a requested shutdown ends *)
}.

Definition fault : error := ErrExternal 5.

Definition on_base {A} (f : Mock.World -> Mock.World * A) (w : World) : World * A :=
  let (b, a) := f (base w) in
  ({| base := b; handles := handles w; shutdown_time := shutdown_time w |}, a).

Definition on_base_ (f : Mock.World -> Mock.World) (w : World) : World :=
  {| base := f (base w); handles := handles w; shutdown_time := shutdown_time w |}.

Definition unless {A} (broken : bool) (failure : A) (f : World -> World * A)
    (w : World) : World * A :=
  if broken then (w, failure) else f w.

Definition tick (w : World) : World :=
  if Mock.native (base w) =? libvirt.DOMAIN_SHUTDOWN
  then match shutdown_time w with
       | O => on_base_ (Mock.set_native libvirt.DOMAIN_SHUTOFF) w
       | S n => {| base := base w; handles := handles w; shutdown_time := n |}
       end
  else w.

Definition hv (broken : Call -> bool) : Collaborators World := {|
  getConnection :=
    unless (broken CgetConnection) (Some fault) (on_base (getConnection Mock.hv));
  conn_Close := on_base_ (conn_Close Mock.hv);
  conn_LookupNetworkByName name := on_base (conn_LookupNetworkByName Mock.hv name);
  conn_LookupDomainByName name := on_base (conn_LookupDomainByName Mock.hv name);
  net_Destroy := unless (broken CnetDestroy) (Some fault) (on_base (net_Destroy Mock.hv));
  net_Undefine := on_base (net_Undefine Mock.hv);
  getDomain d w :=
    match handles w with
    | O => (w, Some fault)
    | S n =>
        let (b, err) := getDomain Mock.hv d (base w) in
        ({| base := b;
            handles := match err with Some _ => handles w | None => n end;
            shutdown_time := shutdown_time w |}, err)
    end;
  closeDomain := on_base_ (closeDomain Mock.hv);
  dom_GetState :=
    unless (broken CdomGetState) (inr fault) (on_base (dom_GetState Mock.hv));
  dom_Create := unless (broken CdomCreate) (Some fault) (on_base (dom_Create Mock.hv));
  dom_Shutdown :=
    unless (broken CdomShutdown) (Some fault)
      (fun w => (on_base_ (Mock.set_native libvirt.DOMAIN_SHUTDOWN) w, None));
  dom_Destroy := unless (broken CdomDestroy) (Some fault) (on_base (dom_Destroy Mock.hv));
  dom_Undefine := on_base (dom_Undefine Mock.hv);
  dom_Free := on_base_ (dom_Free Mock.hv);
  lookupIP d := unless (broken ClookupIP) (inr fault) (on_base (lookupIP Mock.hv d));
  createNetwork d :=
    unless (broken CcreateNetwork) (Some fault) (on_base (createNetwork Mock.hv d));
  createDomain d :=
    unless (broken CcreateDomain) (Some fault) (on_base (createDomain Mock.hv d));
  MakeDiskImage d url size := on_base (MakeDiskImage Mock.hv d url size);
  WaitForSSH d := on_base (WaitForSSH Mock.hv d);
  time_Sleep _ := tick;
  os_MkdirAll := Mock.MkdirAll
|}.

Definition GetLibVersion (broken : bool) (w : World) : World * (Z + error) :=
  (w, if broken then inr fault else inl 4000000).

(** Nothing is broken. *)
Definition sound (c : Call) : bool := false.

(** Only the collaborator behind the call [c] is broken. *)
Definition only (c : Call) (c' : Call) : bool := bool_decide (c' = c).

Definition host (b : Mock.World) (h t : nat) : World :=
  {| base := b; handles := h; shutdown_time := t |}.

(** A defined machine that runs and holds a lease. *)
Definition up : Mock.World :=
  {| Mock.connect_ok := true; Mock.network_defined := true;
     Mock.domain_defined := true; Mock.native := libvirt.DOMAIN_RUNNING;
     Mock.boots_to := libvirt.DOMAIN_RUNNING; Mock.lease_after := 0;
     Mock.lease := "192.168.39.7"; Mock.disk_ok := true; Mock.ssh_ok := true |}.

(** A host whose libvirt socket cannot be reached. *)
Definition offline : Mock.World :=
  {| Mock.connect_ok := false; Mock.network_defined := true;
     Mock.domain_defined := true; Mock.native := libvirt.DOMAIN_RUNNING;
     Mock.boots_to := libvirt.DOMAIN_RUNNING; Mock.lease_after := 0;
     Mock.lease := "192.168.39.7"; Mock.disk_ok := true; Mock.ssh_ok := true |}.

(** The same collaborators with another [os.MkdirAll]. *)
Definition with_os_MkdirAll {W : Type}
    (mk : path -> Z -> FileSystem -> FileSystem * option error)
    (c : Collaborators W) : Collaborators W := {|
  getConnection := getConnection c;
  conn_Close := conn_Close c;
  conn_LookupNetworkByName := conn_LookupNetworkByName c;
  conn_LookupDomainByName := conn_LookupDomainByName c;
  net_Destroy := net_Destroy c;
  net_Undefine := net_Undefine c;
  getDomain := getDomain c;
  closeDomain := closeDomain c;
  dom_GetState := dom_GetState c;
  dom_Create := dom_Create c;
  dom_Shutdown := dom_Shutdown c;
  dom_Destroy := dom_Destroy c;
  dom_Undefine := dom_Undefine c;
  dom_Free := dom_Free c;
  lookupIP := lookupIP c;
  createNetwork := createNetwork c;
  createDomain := createDomain c;
  MakeDiskImage := MakeDiskImage c;
  WaitForSSH := WaitForSSH c;
  time_Sleep := time_Sleep c;
  os_MkdirAll := mk
|}.

(** An [os.MkdirAll] that reports success and makes nothing. *)
Definition idle_MkdirAll (dir : path) (perm : Z) (fs : FileSystem) :
    FileSystem * option error := (fs, None).

Definition run (d : Driver) (w : World) (fs : FileSystem) : Run World :=
  {| drv := d; world := w; files := fs; calls := [] |}.

End Lab.

(** * Properties *)

Lemma state_eqb_eq (a b : state.State) : state.eqb a b = true <-> a = b.
Proof. destruct a, b; simpl; split; intros H; try reflexivity; discriminate H. Qed.

Lemma state_eqb_neq (a b : state.State) : state.eqb a b = false <-> a <> b.
Proof.
  split.
  - intros H E. apply state_eqb_eq in E. congruence.
  - intros H. destruct (state.eqb a b) eqn:E; [|reflexivity].
    apply state_eqb_eq in E. contradiction.
Qed.

Lemma occurrences_app (c : Call) (l1 l2 : list Call) :
  occurrences c (l1 ++ l2) = (occurrences c l1 + occurrences c l2)%nat.
Proof.
  induction l1 as [|c' l1 IH]; simpl; [reflexivity|].
  destruct (decide (c' = c)); simpl; rewrite IH; reflexivity.
Qed.

Lemma occurrences_absent (c : Call) (l : list Call) :
  ~ In c l -> occurrences c l = 0%nat.
Proof.
  induction l as [|c' l IH]; intros H; [reflexivity|].
  cbn. destruct (decide (c' = c)) as [-> | _].
  - exfalso. apply H. left. reflexivity.
  - apply IH. intros Hin. apply H. right. exact Hin.
Qed.

(** ** The state translator *)

Lemma translate_never_errors (v : libvirt.DomainState) : snd (translate v) = None.
Proof.
  unfold translate.
  repeat match goal with |- context [if ?b then _ else _] => destruct b end;
    reflexivity.
Qed.

Lemma translate_unknown (v : libvirt.DomainState) :
  ~ In v libvirt.known -> translate v = (state.None_, None).
Proof.
  intros H. unfold libvirt.known in H. simpl in H.
  unfold translate, libvirt.DOMAIN_NOSTATE, libvirt.DOMAIN_RUNNING,
    libvirt.DOMAIN_BLOCKED, libvirt.DOMAIN_PAUSED, libvirt.DOMAIN_SHUTDOWN,
    libvirt.DOMAIN_SHUTOFF, libvirt.DOMAIN_CRASHED, libvirt.DOMAIN_PMSUSPENDED in *.
  repeat match goal with
         | |- context [(v =? ?k)] => destruct (Z.eqb_spec v k); [exfalso; lia|]
         end.
  reflexivity.
Qed.

(** Unfolds the plumbing of runs. *)
Ltac run_unfold :=
  cbv [bind defer extern_ extern onFiles ret getDriver setIPAddress orReturn] in *;
  cbn [fst snd drv world files calls] in *.

Section GetStateFacts.

Context {W : Type} (hv : Collaborators W).

(** What [GetState] returns once the domain handle and its native state are
    obtained. *)
Lemma GetState_of_native (r : Run W) (w1 w2 : W) (v : libvirt.DomainState) :
  getDomain hv (drv r) (world r) = (w1, None) ->
  dom_GetState hv w1 = (w2, inl v) ->
  GetState hv r =
    ({| drv := drv r; world := closeDomain hv w2; files := files r;
        calls := calls r ++ [CgetDomain; CdomGetState; CcloseDomain] |},
     translate v).
Proof.
  intros Hdom Hst.
  unfold GetState. run_unfold.
  rewrite Hdom. cbn [world]. rewrite Hst. cbn.
  rewrite <- !app_assoc. reflexivity.
Qed.

(** [GetState] leaves the driver record and the files alone and never calls
    anything but the domain lookup, the state query and the release. *)
Lemma GetState_frame (r : Run W) :
  let out := fst (GetState hv r) in
  drv out = drv r /\ files out = files r /\
  (calls out = calls r ++ [CgetDomain] \/
   calls out = calls r ++ [CgetDomain; CdomGetState; CcloseDomain]).
Proof.
  unfold GetState. run_unfold.
  destruct (getDomain hv (drv r) (world r)) as [w1 [e|]]; cbn.
  - auto.
  - destruct (dom_GetState hv w1) as [w2 [v|e]]; cbn;
      rewrite <- !app_assoc; auto.
Qed.

(** C3. The translation inside [GetState] is a total function of the native
    state: running and shutdown-in-progress give Running, blocked and crashed
    give Error, paused gives Paused, shutoff gives Stopped, pmsuspended gives
    Saved, and no-state as well as every integer outside the native
    enumeration gives None; the error returned with it is always nil.  So
    does [GetState] itself whenever it obtained the native state. *)
Theorem GetState_translation (r : Run W) (w1 w2 : W) (v : libvirt.DomainState) :
  getDomain hv (drv r) (world r) = (w1, None) ->
  dom_GetState hv w1 = (w2, inl v) ->
  snd (GetState hv r) = translate v /\
  snd (translate v) = None /\
  (v = libvirt.DOMAIN_RUNNING -> fst (translate v) = state.Running) /\
  (v = libvirt.DOMAIN_SHUTDOWN -> fst (translate v) = state.Running) /\
  (v = libvirt.DOMAIN_BLOCKED -> fst (translate v) = state.Error) /\
  (v = libvirt.DOMAIN_CRASHED -> fst (translate v) = state.Error) /\
  (v = libvirt.DOMAIN_PAUSED -> fst (translate v) = state.Paused) /\
  (v = libvirt.DOMAIN_SHUTOFF -> fst (translate v) = state.Stopped) /\
  (v = libvirt.DOMAIN_PMSUSPENDED -> fst (translate v) = state.Saved) /\
  (v = libvirt.DOMAIN_NOSTATE -> fst (translate v) = state.None_) /\
  (~ In v libvirt.known -> fst (translate v) = state.None_).
Proof.
  intros Hdom Hst.
  split; [rewrite (GetState_of_native r w1 w2 v Hdom Hst); reflexivity|].
  split; [apply translate_never_errors|].
  repeat (split; [intros ->; reflexivity|]).
  intros H. rewrite (translate_unknown v H). reflexivity.
Qed.

End GetStateFacts.

(** [GetState] on a simulated domain whose native state is a value that
    libvirt does not define. *)
Lemma GetState_translation_witness :
  snd (GetState Mock.hv
         (Mock.run Mock.machine (Mock.set_native 99 Mock.healthy) ∅))
  = (state.None_, None).
Proof.
  pose proof (GetState_translation Mock.hv
                (Mock.run Mock.machine (Mock.set_native 99 Mock.healthy) ∅)
                (Mock.set_native 99 Mock.healthy)
                (Mock.set_native 99 Mock.healthy) 99
                eq_refl eq_refl) as (Hs & _ & _).
  rewrite Hs. reflexivity.
Defined.

(** ** GetIP *)

Section GetIPFacts.

Context {W : Type} (hv : Collaborators W).

Lemma GetState_no_lookupIP (r : Run W) :
  occurrences ClookupIP (calls (fst (GetState hv r))) = occurrences ClookupIP (calls r).
Proof.
  destruct (GetState_frame hv r) as (_ & _ & [H | H]); rewrite H;
    rewrite occurrences_app; simpl; lia.
Qed.

Lemma GetIP_unfold (r : Run W) :
  GetIP hv r =
    let '(r', (s, err)) := GetState hv r in
    match err with
    | Some e => (r', ("", Some (ErrWrap e "machine in unknown state")))
    | None =>
        if negb (state.eqb s state.Running)
        then (r', ("", Some (ErrNew "host is not running")))
        else
          let (w', found) := lookupIP hv (drv r') (world r') in
          let r'' := {| drv := drv r'; world := w'; files := files r';
                        calls := calls r' ++ [ClookupIP] |} in
          match found with
          | inr e => (r'', ("", Some (ErrWrap e "getting IP")))
          | inl ip => (r'', (ip, None))
          end
    end.
Proof.
  unfold GetIP. run_unfold.
  destruct (GetState hv r) as [r' [s [e|]]]; [reflexivity|].
  destruct (negb (state.eqb s state.Running)); [reflexivity|].
  destruct (lookupIP hv (drv r') (world r')) as [w' [ip|e]]; reflexivity.
Qed.

Lemma GetIP_when_not_running (r r' : Run W) (s : state.State) :
  GetState hv r = (r', (s, None)) -> s <> state.Running ->
  GetIP hv r = (r', ("", Some (ErrNew "host is not running"))).
Proof.
  intros HS Hs. rewrite GetIP_unfold, HS.
  apply state_eqb_neq in Hs. rewrite Hs. reflexivity.
Qed.

(** [GetIP] leaves the driver record alone, never sleeps, and asks for the
    domain handle exactly once. *)
Lemma GetIP_frame (r : Run W) :
  drv (fst (GetIP hv r)) = drv r /\
  occurrences (CSleep 3) (calls (fst (GetIP hv r))) = occurrences (CSleep 3) (calls r) /\
  occurrences CgetDomain (calls (fst (GetIP hv r))) = S (occurrences CgetDomain (calls r)).
Proof.
  rewrite GetIP_unfold.
  pose proof (GetState_frame hv r) as (Hd & _ & Hc).
  destruct (GetState hv r) as [r' [s [e|]]]; cbn [fst] in *.
  - split; [exact Hd|].
    destruct Hc as [-> | ->]; rewrite !occurrences_app; simpl; lia.
  - destruct (negb (state.eqb s state.Running)); cbn [fst].
    + split; [exact Hd|].
      destruct Hc as [-> | ->]; rewrite !occurrences_app; simpl; lia.
    + destruct (lookupIP hv (drv r') (world r')) as [w' [ip|e]]; cbn [fst drv calls];
        (split; [exact Hd|]);
        destruct Hc as [-> | ->]; rewrite !occurrences_app; simpl; lia.
Qed.

(** C5. When the translated state is anything other than Running, [GetIP]
    returns the "host is not running" error without calling the address
    resolver; the resolver is called (once) only when [GetState] succeeded
    with Running. *)
Theorem GetIP_requires_running (r r' : Run W) (s : state.State) (err : option error) :
  GetState hv r = (r', (s, err)) ->
  (err = None -> s <> state.Running ->
   GetIP hv r = (r', ("", Some (ErrNew "host is not running"))) /\
   occurrences ClookupIP (calls (fst (GetIP hv r))) = occurrences ClookupIP (calls r)) /\
  (err = None -> s = state.Running ->
   calls (fst (GetIP hv r)) = calls r' ++ [ClookupIP]) /\
  (occurrences ClookupIP (calls (fst (GetIP hv r))) <> occurrences ClookupIP (calls r) ->
   err = None /\ s = state.Running).
Proof.
  intros HS.
  pose proof (GetState_no_lookupIP r) as Hno. rewrite HS in Hno. cbn in Hno.
  rewrite GetIP_unfold, HS.
  split; [|split].
  - intros -> Hs. apply state_eqb_neq in Hs. rewrite Hs. cbn. auto.
  - intros -> ->. cbn.
    destruct (lookupIP hv (drv r') (world r')) as [w' [ip|e]]; reflexivity.
  - destruct err as [e|]; [cbn; intros H; contradiction|].
    destruct (state.eqb s state.Running) eqn:Es; cbn.
    + intros _. apply state_eqb_eq in Es. auto.
    + intros H. contradiction.
Qed.

End GetIPFacts.

(** [GetIP] on a simulated machine that is shut off. *)
Lemma GetIP_requires_running_witness :
  GetIP Mock.hv (Mock.run Mock.machine Mock.healthy ∅)
  = ({| drv := Mock.machine; world := Mock.healthy; files := ∅;
        calls := [CgetDomain; CdomGetState; CcloseDomain] |},
     ("", Some (ErrNew "host is not running"))).
Proof.
  refine (proj1 (proj1 (GetIP_requires_running Mock.hv
            (Mock.run Mock.machine Mock.healthy ∅) _ state.Stopped None _) _ _)).
  - reflexivity.
  - reflexivity.
  - discriminate.
Defined.

(** ** Stop *)

Section StopFacts.

Context {W : Type} (hv : Collaborators W).

Lemma waitForStop_drv (n : nat) (r : Run W) :
  drv (fst (waitForStop hv n r)) = drv r.
Proof.
  revert r. induction n as [|n IH]; intros r; [reflexivity|].
  cbn [waitForStop]. run_unfold.
  pose proof (GetState_frame hv r) as (Hd & _ & _).
  destruct (GetState hv r) as [r' [s [e|]]]; cbn in *; [exact Hd|].
  destruct (state.eqb s state.Stopped); cbn; [exact Hd|].
  rewrite IH. cbn. exact Hd.
Qed.

Lemma Stop_drv (r : Run W) :
  drv (fst (Stop hv r)) = with_IPAddress "" (drv r).
Proof.
  unfold Stop. run_unfold.
  pose proof (GetState_frame hv (cleared r)) as (Hd & _ & _).
  unfold cleared in Hd. run_unfold.
  match type of Hd with
  | drv (fst (GetState hv ?x)) = _ => destruct (GetState hv x) as [r' [s [e|]]]
  end; cbn in *; [exact Hd|].
  destruct (negb (state.eqb s state.Stopped)); cbn; [|exact Hd].
  destruct (getDomain hv (drv r') (world r')) as [w1 [e|]]; cbn; [exact Hd|].
  destruct (dom_Shutdown hv w1) as [w2 [e|]]; cbn; [exact Hd|].
  match goal with
  | |- context [waitForStop hv ?n ?x] =>
      pose proof (waitForStop_drv n x) as Hw;
      destruct (waitForStop hv n x) as [r3 [res|]]
  end; cbn in *; rewrite Hw; exact Hd.
Qed.

(** What [Stop] does when the first state query reports Stopped: the block
    guarded by [s != state.Stopped] is skipped and control reaches the final
    [return fmt.Errorf(...)]. *)
Lemma Stop_when_already_stopped (r r' : Run W) :
  GetState hv (cleared r) = (r', (state.Stopped, None)) ->
  Stop hv r = (r', Some (ErrErrorf "Could not stop VM, current state %s" state.Stopped)).
Proof.
  intros HS. unfold Stop. unfold cleared in HS. run_unfold.
  rewrite HS. reflexivity.
Qed.

(** C10. [Stop] begins by clearing the recorded address and nothing it does
    afterwards writes it: whatever the outcome of the call (success or any of
    its errors), the address is empty afterwards, and the call behaves as it
    does on the run whose address is already cleared. *)
Theorem Stop_clears_IPAddress (r : Run W) :
  IPAddress (drv (fst (Stop hv r))) = "" /\
  drv (fst (Stop hv r)) = with_IPAddress "" (drv r) /\
  Stop hv r = Stop hv (cleared r).
Proof.
  split; [rewrite Stop_drv; reflexivity|].
  split; [apply Stop_drv | reflexivity].
Qed.

End StopFacts.

(** C1. On a machine whose domain is already shut off, [Stop] clears the
    recorded address and issues no shutdown request, but what it returns is
    the error "Could not stop VM, current state Stopped", not success. *)
Theorem Stop_on_stopped_machine_returns_error :
  let r := Mock.run (with_IPAddress "192.168.39.7" Mock.machine) Mock.healthy ∅ in
  snd (GetState Mock.hv r) = (state.Stopped, None) /\
  snd (Stop Mock.hv r)
    = Some (ErrErrorf "Could not stop VM, current state %s" state.Stopped) /\
  IPAddress (drv (fst (Stop Mock.hv r))) = "" /\
  occurrences CdomShutdown (calls (fst (Stop Mock.hv r))) = 0%nat.
Proof.
  cbv zeta. repeat split; vm_compute; reflexivity.
Qed.

(** ** Start *)

Section StartFacts.

Context {W : Type} (hv : Collaborators W).

Lemma waitForIP_unfold (n : nat) (r : Run W) :
  waitForIP hv (S n) r =
    let '(r', (ip, err)) := GetIP hv r in
    match err with
    | Some e => (r', Some (ErrWrap e "getting ip during machine start"))
    | None =>
        if String.eqb ip "" then waitForIP hv n (slept3 hv r')
        else (recorded ip r', None)
    end.
Proof.
  cbn [waitForIP]. unfold slept3, recorded. run_unfold.
  destruct (GetIP hv r) as [r' [ip [e|]]]; [reflexivity|].
  destruct (String.eqb ip ""); reflexivity.
Qed.

(** An error that leaves the loop is always an error of [GetIP], wrapped. *)
Lemma waitForIP_error_is_GetIP_error (n : nat) (r r' : Run W) (e : error) :
  waitForIP hv n r = (r', Some e) ->
  exists r0 ip e0, GetIP hv r0 = (r', (ip, Some e0)) /\
                   e = ErrWrap e0 "getting ip during machine start".
Proof.
  revert r. induction n as [|n IH]; intros r H; [discriminate H|].
  rewrite waitForIP_unfold in H.
  destruct (GetIP hv r) as [r1 [ip [e0|]]] eqn:HG.
  - injection H as <- <-. eauto.
  - destruct (String.eqb ip ""); [eauto|discriminate H].
Qed.


(** As long as every attempt comes back empty, the loop keeps going: [n]
    attempts are [n] requests for the domain handle and [n] sleeps. *)
Lemma waitForIP_always_empty (n : nat) (r : Run W) :
  always_empty hv n r ->
  snd (waitForIP hv n r) = None /\
  drv (fst (waitForIP hv n r)) = drv r /\
  occurrences (CSleep 3) (calls (fst (waitForIP hv n r)))
    = (occurrences (CSleep 3) (calls r) + n)%nat /\
  occurrences CgetDomain (calls (fst (waitForIP hv n r)))
    = (occurrences CgetDomain (calls r) + n)%nat.
Proof.
  revert r. induction n as [|n IH]; intros r Hall.
  - cbn. repeat split; lia.
  - destruct Hall as (r' & HG & Hall).
    pose proof (GetIP_frame hv r) as (Hd & Hs & Hg). rewrite HG in Hd, Hs, Hg.
    cbn [fst] in Hd, Hs, Hg.
    rewrite waitForIP_unfold, HG. cbn [String.eqb].
    destruct (IH _ Hall) as (H1 & H2 & H3 & H4).
    rewrite H1, H2, H3, H4. unfold slept3. run_unfold.
    rewrite !occurrences_app, Hs, Hg. simpl.
    repeat split; try lia. exact Hd.
Qed.


Lemma Start_unfold (r : Run W) (w1 w2 : W) :
  getDomain hv (drv r) (world r) = (w1, None) ->
  dom_Create hv w1 = (w2, None) ->
  Start hv r =
    let (r3, out) := waitForIP hv ipAttempts (booted r w2) in
    match out with
    | Some e => (closed hv r3, Some e)
    | None =>
        if String.eqb (IPAddress (drv r3)) ""
        then (closed hv r3, Some (ErrNew "Machine didn't return an IP after 120 seconds"))
        else
          let (w4, err) := WaitForSSH hv (drv r3) (world r3) in
          let r4 := {| drv := drv r3; world := w4; files := files r3;
                       calls := calls r3 ++ [CWaitForSSH] |} in
          match err with
          | Some e =>
              (closed hv (recorded "" r4),
               Some (ErrWrap e "SSH not available after waiting"))
          | None => (closed hv r4, None)
          end
    end.
Proof.
  intros Hdom Hcreate.
  unfold Start, closed, recorded, booted. run_unfold.
  rewrite Hdom. cbn [world]. rewrite Hcreate.
  cbn [drv world files calls]. rewrite <- app_assoc. cbn [app].
  destruct (waitForIP hv ipAttempts _) as [r3 [e|]]; [reflexivity|].
  destruct (String.eqb (IPAddress (drv r3)) ""); [reflexivity|].
  destruct (WaitForSSH hv (drv r3) (world r3)) as [w4 [e|]]; reflexivity.
Qed.

(** [Start] with no address recorded, on a machine that never gets one: 41
    attempts and 41 sleeps of three seconds, then the time-out error. *)
Lemma Start_times_out_after_41_attempts (r : Run W) (w1 w2 : W) :
  IPAddress (drv r) = "" ->
  getDomain hv (drv r) (world r) = (w1, None) ->
  dom_Create hv w1 = (w2, None) ->
  always_empty hv ipAttempts (booted r w2) ->
  snd (Start hv r) = Some (ErrNew "Machine didn't return an IP after 120 seconds") /\
  occurrences (CSleep 3) (calls (fst (Start hv r)))
    = (occurrences (CSleep 3) (calls r) + 41)%nat /\
  occurrences CgetDomain (calls (fst (Start hv r)))
    = (occurrences CgetDomain (calls r) + 1 + 41)%nat.
Proof.
  intros Hip Hdom Hcreate Hall.
  destruct (waitForIP_always_empty ipAttempts _ Hall) as (H1 & H2 & H3 & H4).
  rewrite (Start_unfold r w1 w2 Hdom Hcreate).
  destruct (waitForIP hv ipAttempts (booted r w2)) as [r3 out].
  cbn [fst snd] in H1, H2, H3, H4. subst out.
  rewrite H2. cbn [booted drv]. rewrite Hip. cbn [String.eqb].
  unfold closed. run_unfold. rewrite !occurrences_app, H3, H4.
  unfold booted. cbn [calls]. rewrite !occurrences_app. simpl.
  change ipAttempts with 41%nat. repeat split; lia.
Qed.

(** C9. When the wait for an address ends with an address recorded and the
    SSH readiness wait then fails, [Start] resets the recorded address to the
    empty string and returns the readiness failure, wrapped. *)
Theorem Start_ssh_failure_clears_IPAddress (r r3 : Run W) (w1 w2 w4 : W) (e : error) :
  getDomain hv (drv r) (world r) = (w1, None) ->
  dom_Create hv w1 = (w2, None) ->
  waitForIP hv ipAttempts (booted r w2) = (r3, None) ->
  IPAddress (drv r3) <> "" ->
  WaitForSSH hv (drv r3) (world r3) = (w4, Some e) ->
  snd (Start hv r) = Some (ErrWrap e "SSH not available after waiting") /\
  IPAddress (drv (fst (Start hv r))) = "" /\
  calls (fst (Start hv r)) = calls r3 ++ [CWaitForSSH; CcloseDomain].
Proof.
  intros Hdom Hcreate Hwait Hip Hssh.
  rewrite (Start_unfold r w1 w2 Hdom Hcreate), Hwait.
  apply String.eqb_neq in Hip. rewrite Hip, Hssh.
  unfold closed, recorded. run_unfold.
  rewrite <- app_assoc. repeat split.
Qed.

End StartFacts.


(** [Start] on a simulated machine whose SSH endpoint never answers. *)
Lemma Start_ssh_failure_clears_IPAddress_witness :
  let r := Mock.run Mock.machine
             {| Mock.connect_ok := true; Mock.network_defined := true;
                Mock.domain_defined := true; Mock.native := libvirt.DOMAIN_SHUTOFF;
                Mock.boots_to := libvirt.DOMAIN_RUNNING; Mock.lease_after := 1;
                Mock.lease := "192.168.39.7"; Mock.disk_ok := true;
                Mock.ssh_ok := false |} ∅ in
  snd (Start Mock.hv r)
    = Some (ErrWrap Mock.sshTimeout "SSH not available after waiting") /\
  IPAddress (drv (fst (Start Mock.hv r))) = "".
Proof.
  cbv zeta.
  match goal with |- context [Start Mock.hv ?x] => set (r := x) end.
  set (w2 := Mock.set_native libvirt.DOMAIN_RUNNING (world r)).
  set (r3 := fst (waitForIP Mock.hv ipAttempts (booted r w2))).
  destruct (Start_ssh_failure_clears_IPAddress Mock.hv r r3 (world r) w2
              (world r3) Mock.sshTimeout) as (H1 & H2 & _).
  - reflexivity.
  - reflexivity.
  - vm_compute. reflexivity.
  - vm_compute. discriminate.
  - vm_compute. reflexivity.
  - split; [exact H1 | exact H2].
Defined.


(** C2. The loop of [Start] runs for [i = 0 .. 40], which is 41 attempts.
    On a simulated machine whose lease never appears, [Start] queries the
    address 41 times and sleeps 41 times three seconds before it fails with
    "Machine didn't return an IP after 120 seconds"; when the lease appears
    only on the 41st query, [Start] still succeeds.  And when the driver
    record already holds an address from an earlier start, a wait in which
    every query came back empty does not fail at all. *)
Theorem Start_polls_forty_one_times :
  let never := Mock.run Mock.machine (Mock.set_lease_after 1000 Mock.healthy) ∅ in
  let late := Mock.run Mock.machine (Mock.set_lease_after 40 Mock.healthy) ∅ in
  let stale := Mock.run (with_IPAddress "10.0.0.1" Mock.machine)
                 (Mock.set_lease_after 1000 Mock.healthy) ∅ in
  ipAttempts = 41%nat /\
  (snd (Start Mock.hv never)
     = Some (ErrNew "Machine didn't return an IP after 120 seconds") /\
   occurrences ClookupIP (calls (fst (Start Mock.hv never))) = 41%nat /\
   occurrences (CSleep 3) (calls (fst (Start Mock.hv never))) = 41%nat) /\
  (snd (Start Mock.hv late) = None /\
   IPAddress (drv (fst (Start Mock.hv late))) = "192.168.39.7" /\
   occurrences ClookupIP (calls (fst (Start Mock.hv late))) = 41%nat) /\
  (snd (Start Mock.hv stale) = None /\
   IPAddress (drv (fst (Start Mock.hv stale))) = "10.0.0.1" /\
   occurrences ClookupIP (calls (fst (Start Mock.hv stale))) = 41%nat).
Proof.
  cbv zeta. repeat split; vm_compute; reflexivity.
Qed.

(** ** Remove *)

Section RemoveFacts.

Context {W : Type} (hv : Collaborators W).

(** [Remove] fails exactly when the connection cannot be opened; what the
    lookups, [Destroy] and [Undefine] hand back has no part in its result. *)
Lemma Remove_result (r : Run W) :
  snd (Remove hv r) =
    match snd (getConnection hv (world r)) with
    | Some e => Some (ErrWrap e "getting connection")
    | None => None
    end.
Proof.
  unfold Remove. run_unfold.
  destruct (getConnection hv (world r)) as [w1 [e|]]; cbn; [reflexivity|].
  destruct (conn_LookupNetworkByName hv _ w1) as [w2 [[|] nerr]]; cbn.
  - destruct (net_Destroy hv w2) as [w3 ?]; cbn.
    destruct (net_Undefine hv w3) as [w4 ?]; cbn.
    destruct (conn_LookupDomainByName hv _ w4) as [w5 [[|] derr]]; cbn.
    + destruct (dom_Destroy hv w5) as [w6 ?]; cbn.
      destruct (dom_Undefine hv w6) as [w7 ?]; reflexivity.
    + reflexivity.
  - destruct (conn_LookupDomainByName hv _ w2) as [w5 [[|] derr]]; cbn.
    + destruct (dom_Destroy hv w5) as [w6 ?]; cbn.
      destruct (dom_Undefine hv w6) as [w7 ?]; reflexivity.
    + reflexivity.
Qed.

(** C6. With the hypervisor connection open, [Remove] returns success
    whatever the two lookups find or fail to find, and so does a second
    [Remove] right after it; the only error [Remove] ever returns is the
    failure to open the connection. *)
Theorem Remove_succeeds_when_resources_are_gone (r : Run W) :
  snd (getConnection hv (world r)) = None ->
  snd (Remove hv r) = None /\
  (snd (getConnection hv (world (fst (Remove hv r)))) = None ->
   snd (Remove hv (fst (Remove hv r))) = None) /\
  (forall (r0 : Run W) (e : error),
     snd (Remove hv r0) = Some e ->
     exists e0, snd (getConnection hv (world r0)) = Some e0 /\
                e = ErrWrap e0 "getting connection").
Proof.
  intros Hconn. split; [|split].
  - rewrite Remove_result, Hconn. reflexivity.
  - intros Hconn'. rewrite Remove_result, Hconn'. reflexivity.
  - intros r0 e. rewrite Remove_result.
    destruct (snd (getConnection hv (world r0))) as [e0|]; [|discriminate].
    intros [= <-]. eauto.
Qed.

End RemoveFacts.

(** [Remove], twice, on a simulated host where neither the private network
    nor the domain was ever created: both lookups fail and both calls
    succeed. *)
Lemma Remove_succeeds_when_resources_are_gone_witness :
  let r := Mock.run Mock.machine Mock.pristine ∅ in
  snd (conn_LookupNetworkByName Mock.hv "minikube-net" Mock.pristine)
    = (false, Some Mock.noNetwork) /\
  snd (conn_LookupDomainByName Mock.hv "minikube" Mock.pristine)
    = (false, Some Mock.noDomain) /\
  snd (Remove Mock.hv r) = None /\
  snd (Remove Mock.hv (fst (Remove Mock.hv r))) = None.
Proof.
  cbv zeta.
  destruct (Remove_succeeds_when_resources_are_gone Mock.hv
              (Mock.run Mock.machine Mock.pristine ∅) eq_refl) as (H1 & H2 & _).
  split; [reflexivity|]. split; [reflexivity|].
  split; [exact H1 | apply H2; reflexivity].
Defined.

(** ** Create: the directory walk *)

Lemma testbit_9 (i : Z) : i <> 0 -> i <> 3 -> Z.testbit 9 i = false.
Proof.
  intros H0 H3.
  destruct (Z.lt_ge_cases i 0) as [Hneg | Hpos]; [apply Z.testbit_neg_r; exact Hneg|].
  destruct (Z.eq_dec i 1) as [-> | H1]; [reflexivity|].
  destruct (Z.eq_dec i 2) as [-> | H2]; [reflexivity|].
  apply Z.bits_above_log2; [lia|].
  change (Z.log2 9) with 3. lia.
Qed.

Lemma walked_other_bits (info : FileInfo) (i : Z) :
  i <> 0 -> i <> 3 -> Z.testbit (Mode (walked info)) i = Z.testbit (Mode info) i.
Proof.
  intros H0 H3. unfold walked.
  destruct (chmod_permitted info && negb (Z.land (Mode info) 9 =? 1)); [|reflexivity].
  cbn [Mode]. rewrite Z.lor_spec, (testbit_9 i H0 H3). apply orb_false_r.
Qed.

Lemma walked_both_execute (info : FileInfo) :
  chmod_permitted info = true -> Z.land (Mode info) 9 <> 1 ->
  Z.land (Mode (walked info)) 9 = 9.
Proof.
  intros Hp Hm. unfold walked. rewrite Hp. cbn [andb].
  destruct (Z.eqb_spec (Z.land (Mode info) 9) 1) as [E | E]; [contradiction|].
  cbn [negb Mode]. apply Z.bits_inj'. intros i _.
  rewrite Z.land_spec, Z.lor_spec.
  destruct (Z.testbit (Mode info) i), (Z.testbit 9 i); reflexivity.
Qed.

Lemma walked_refused (info : FileInfo) :
  chmod_permitted info = false -> walked info = info.
Proof. intros Hp. unfold walked. rewrite Hp. reflexivity. Qed.

Section WalkFacts.

Context {W : Type}.

Lemma permWalk_cons (x : string) (parent : path) (info : FileInfo) (r : Run W) :
  files r !! (x :: parent) = Some info ->
  permWalk (x :: parent) r = permWalk parent (visit (x :: parent) info r).
Proof.
  intros H. cbn [permWalk]. unfold visit, os_Stat. run_unfold.
  rewrite H.
  destruct (negb (Z.land (Mode info) 9 =? 1)); cbn [fst snd].
  - cbn [drv world files calls].
    destruct (os_Chmod (x :: parent) (Z.lor (Mode info) 9) (files r)) as [fs' err].
    cbn [fst]. rewrite <- app_assoc. reflexivity.
  - reflexivity.
Qed.

Lemma permWalk_missing (x : string) (parent : path) (r : Run W) :
  files r !! (x :: parent) = None ->
  snd (permWalk (x :: parent) r) = Some ENOENT.
Proof.
  intros H. cbn [permWalk]. unfold os_Stat. run_unfold. rewrite H. reflexivity.
Qed.

Lemma visit_lookup (dir p : path) (info : FileInfo) (r : Run W) :
  files r !! dir = Some info ->
  files (visit dir info r) !! p =
    if decide (p = dir) then Some (walked info) else files r !! p.
Proof.
  intros H. unfold visit, walked, os_Chmod. rewrite H.
  destruct (negb (Z.land (Mode info) 9 =? 1)); cbn [files].
  - destruct (chmod_permitted info); cbn [fst andb].
    + rewrite lookup_insert. destruct (decide (dir = p)) as [-> | Hne].
      * rewrite decide_True by reflexivity. reflexivity.
      * rewrite decide_False by congruence. reflexivity.
    + destruct (decide (p = dir)) as [-> | Hne]; [exact H | reflexivity].
  - rewrite andb_false_r.
    destruct (decide (p = dir)) as [-> | Hne]; [exact H | reflexivity].
Qed.

(** The file system after a walk that ran to its end. *)
Lemma permWalk_files (dir : path) (r : Run W) :
  snd (permWalk dir r) = None ->
  forall p : path,
    files (fst (permWalk dir r)) !! p =
      if decide (on_walk p dir) then walked <$> files r !! p else files r !! p.
Proof.
  revert r. induction dir as [|x parent IH]; intros r Hend p.
  - cbn. rewrite decide_False; [reflexivity|].
    intros [Hne Hsuf]. apply suffix_nil_inv in Hsuf. contradiction.
  - destruct (files r !! (x :: parent)) as [info|] eqn:Hdir.
    2:{ rewrite (permWalk_missing x parent r Hdir) in Hend. discriminate Hend. }
    rewrite (permWalk_cons x parent info r Hdir) in Hend |- *.
    rewrite (IH _ Hend p), (visit_lookup _ p info r Hdir).
    destruct (decide (p = x :: parent)) as [-> | Hne].
    + rewrite decide_False.
      2:{ intros [_ Hsuf]. apply suffix_length in Hsuf. cbn in Hsuf. lia. }
      rewrite decide_True by (split; [discriminate | reflexivity]).
      rewrite Hdir. reflexivity.
    + destruct (decide (on_walk p parent)) as [[Hnil Hsuf] | Hoff].
      * rewrite decide_True by (split; [exact Hnil | apply suffix_cons_r; exact Hsuf]).
        reflexivity.
      * rewrite decide_False; [reflexivity|].
        intros [Hnil Hsuf]. destruct p as [|y p']; [contradiction|].
        apply suffix_cons_inv in Hsuf as [Heq | Hsuf];
          [contradiction | apply Hoff; split; assumption].
Qed.

Lemma reached_on_walk (fs : FileSystem) (p dir : path) :
  reached fs p dir -> on_walk p dir.
Proof.
  induction dir as [|x parent IH]; cbn; [tauto|].
  intros [_ [-> | H]]; [split; [discriminate | reflexivity]|].
  destruct (IH H) as [Hnil Hsuf]. split; [exact Hnil | apply suffix_cons_r; exact Hsuf].
Qed.

Lemma reached_mono (fs fs' : FileSystem) (p dir : path) :
  (forall q, on_walk q dir -> is_Some (fs !! q) -> is_Some (fs' !! q)) ->
  reached fs p dir -> reached fs' p dir.
Proof.
  induction dir as [|x parent IH]; cbn; [tauto|].
  intros Hall [Hdir Hp]. split.
  - apply Hall; [split; [discriminate | reflexivity] | exact Hdir].
  - destruct Hp as [-> | Hp]; [left; reflexivity | right].
    apply IH; [|exact Hp].
    intros q [Hnil Hsuf]. apply Hall. split; [exact Hnil | apply suffix_cons_r; exact Hsuf].
Qed.

Lemma not_on_walk_parent (x : string) (parent : path) : ~ on_walk (x :: parent) parent.
Proof. intros [_ Hsuf]. apply suffix_length in Hsuf. cbn in Hsuf. lia. Qed.

Lemma reached_visit (x : string) (parent p : path) (info : FileInfo) (r : Run W) :
  files r !! (x :: parent) = Some info ->
  reached (files (visit (x :: parent) info r)) p parent <-> reached (files r) p parent.
Proof.
  intros Hdir. split; apply reached_mono; intros q Hq;
    rewrite (visit_lookup _ q info r Hdir);
    (destruct (decide (q = x :: parent)) as [-> | _];
       [exfalso; exact (not_on_walk_parent x parent Hq) | tauto]).
Qed.

(** A directory the walk does not get to keeps its entry. *)
Lemma permWalk_unreached (dir q : path) (r : Run W) :
  ~ reached (files r) q dir ->
  files (fst (permWalk dir r)) !! q = files r !! q.
Proof.
  revert r. induction dir as [|x parent IH]; intros r Hnot; [reflexivity|].
  destruct (files r !! (x :: parent)) as [info|] eqn:Hdir.
  - rewrite (permWalk_cons x parent info r Hdir).
    assert (Hne : q <> x :: parent).
    { intros ->. apply Hnot. cbn. rewrite Hdir. eauto. }
    rewrite IH.
    + rewrite (visit_lookup _ q info r Hdir), decide_False by exact Hne. reflexivity.
    + intros Hr. apply Hnot. cbn. rewrite Hdir. split; [eauto|]. right.
      apply (reached_visit x parent q info r Hdir). exact Hr.
  - cbn [permWalk]. unfold os_Stat. run_unfold. rewrite Hdir. reflexivity.
Qed.

(** A directory the walk gets to is left as one visit leaves it. *)
Lemma permWalk_reached (dir p : path) (r : Run W) :
  reached (files r) p dir ->
  files (fst (permWalk dir r)) !! p = walked <$> files r !! p.
Proof.
  revert r. induction dir as [|x parent IH]; intros r Hr; [destruct Hr|].
  destruct Hr as [[info Hdir] Hp].
  rewrite (permWalk_cons x parent info r Hdir).
  destruct (decide (p = x :: parent)) as [-> | Hne].
  - rewrite permWalk_unreached.
    + rewrite (visit_lookup _ _ info r Hdir), decide_True, Hdir by reflexivity.
      reflexivity.
    + intros H. exact (not_on_walk_parent x parent (reached_on_walk _ _ _ H)).
  - destruct Hp as [-> | Hp]; [contradiction|].
    rewrite IH by (apply (reached_visit x parent p info r Hdir); exact Hp).
    rewrite (visit_lookup _ p info r Hdir), decide_False by exact Hne. reflexivity.
Qed.

(** What the walk logs: every mode change it asks for is [mode | 0011] of a
    directory on the path, and a directory it gets to whose masked mode is
    not 1 is asked to change. *)
Lemma permWalk_log (dir : path) (r : Run W) :
  exists steps,
    calls (fst (permWalk dir r)) = calls r ++ steps /\
    (forall q m, In (CChmod q m) steps ->
       on_walk q dir /\ exists info, files r !! q = Some info /\ m = Z.lor (Mode info) 9) /\
    (forall p info, reached (files r) p dir -> files r !! p = Some info ->
       Z.land (Mode info) 9 <> 1 -> In (CChmod p (Z.lor (Mode info) 9)) steps).
Proof.
  revert r. induction dir as [|x parent IH]; intros r.
  - exists []. cbn. rewrite app_nil_r. split; [reflexivity|]. split; [tauto|].
    intros p info [].
  - destruct (files r !! (x :: parent)) as [info0|] eqn:Hdir.
    + rewrite (permWalk_cons x parent info0 r Hdir).
      destruct (IH (visit (x :: parent) info0 r)) as (steps & Hc & Hform & Hasked).
      set (pre := if negb (Z.land (Mode info0) 9 =? 1)
                  then [CStat (x :: parent); CChmod (x :: parent) (Z.lor (Mode info0) 9)]
                  else [CStat (x :: parent)]).
      assert (Hpre : calls (visit (x :: parent) info0 r) = calls r ++ pre).
      { unfold visit, pre. destruct (negb (Z.land (Mode info0) 9 =? 1)); reflexivity. }
      exists (pre ++ steps). rewrite Hc, Hpre, <- app_assoc.
      split; [reflexivity|]. split.
      * intros q m Hin. apply in_app_or in Hin as [Hin | Hin].
        { unfold pre in Hin. destruct (negb (Z.land (Mode info0) 9 =? 1)); cbn in Hin.
          - destruct Hin as [H | [H | []]]; [discriminate H|].
            injection H as <- <-. split; [split; [discriminate | reflexivity]|]. eauto.
          - destruct Hin as [H | []]. discriminate H. }
        destruct (Hform q m Hin) as (Hon & info & Hq & Hm).
        split.
        { destruct Hon as [Hnil Hsuf]. split; [exact Hnil | apply suffix_cons_r; exact Hsuf]. }
        exists info. split; [|exact Hm].
        rewrite (visit_lookup _ q info0 r Hdir) in Hq.
        destruct (decide (q = x :: parent)) as [-> | _];
          [exfalso; exact (not_on_walk_parent x parent Hon) | exact Hq].
      * intros p info [_ Hp] Hinfo Hmask. apply in_or_app.
        destruct (decide (p = x :: parent)) as [-> | Hne].
        { left. rewrite Hdir in Hinfo. injection Hinfo as ->. unfold pre.
          destruct (Z.eqb_spec (Z.land (Mode info) 9) 1) as [E | _]; [contradiction|].
          cbn. right. left. reflexivity. }
        right. destruct Hp as [-> | Hp]; [contradiction|].
        apply (Hasked p info); [apply (reached_visit x parent p info0 r Hdir); exact Hp
                               | | exact Hmask].
        rewrite (visit_lookup _ p info0 r Hdir), decide_False by exact Hne. exact Hinfo.
    + exists [CStat (x :: parent)]. cbn [permWalk]. unfold os_Stat. run_unfold.
      rewrite Hdir. cbn. split; [reflexivity|]. split.
      * intros q m [H | []]. discriminate H.
      * intros p info [[i Hi] _]. congruence.
Qed.

Lemma walked_never_clears (info : FileInfo) (i : Z) :
  Z.testbit (Mode info) i = true -> Z.testbit (Mode (walked info)) i = true.
Proof.
  intros H. unfold walked.
  destruct (chmod_permitted info && negb (Z.land (Mode info) 9 =? 1)); [|exact H].
  cbn [Mode]. rewrite Z.lor_spec, H. reflexivity.
Qed.

Lemma lacking_other_execute (m : Z) : Z.testbit m 0 = false -> Z.land m 9 <> 1.
Proof.
  intros H E.
  assert (Hb : Z.testbit (Z.land m 9) 0 = true) by (rewrite E; reflexivity).
  rewrite Z.land_spec, H in Hb. discriminate Hb.
Qed.

(** C8, as the code has it.  The walk changes modes only by asking
    [os.Chmod] for [mode | 0011] on directories of the path, and does not look
    at the answer.  So on a directory it gets to, no mode bit is ever cleared
    and no bit outside [0011] is altered; a directory that lacks the
    other-execute bit is asked to change and, when the change is permitted,
    ends with the group and the other execute bit set; a directory whose
    change is refused keeps its mode.  A directory the walk does not get to
    is left as it is.  This holds for a walk that ends at the root and for
    one that stops at a failing [os.Stat]. *)
Theorem permWalk_sets_execute_bits (dir p : path) (r : Run W) (info : FileInfo) :
  reached (files r) p dir ->
  files r !! p = Some info ->
  exists steps info',
    calls (fst (permWalk dir r)) = calls r ++ steps /\
    files (fst (permWalk dir r)) !! p = Some info' /\
    (forall q m, In (CChmod q m) steps ->
       on_walk q dir /\
       exists infoq, files r !! q = Some infoq /\ m = Z.lor (Mode infoq) 9) /\
    (forall i, i <> 0 -> i <> 3 ->
       Z.testbit (Mode info') i = Z.testbit (Mode info) i) /\
    (forall i, Z.testbit (Mode info) i = true -> Z.testbit (Mode info') i = true) /\
    (Z.testbit (Mode info) 0 = false ->
       In (CChmod p (Z.lor (Mode info) 9)) steps /\
       (chmod_permitted info = true -> Z.land (Mode info') 9 = 9)) /\
    (chmod_permitted info = false -> info' = info) /\
    (forall q : path, ~ reached (files r) q dir ->
       files (fst (permWalk dir r)) !! q = files r !! q).
Proof.
  intros Hr Hp.
  destruct (permWalk_log dir r) as (steps & Hc & Hform & Hasked).
  exists steps, (walked info).
  split; [exact Hc|].
  split; [rewrite (permWalk_reached dir p r Hr), Hp; reflexivity|].
  split; [exact Hform|].
  split; [intros i; apply walked_other_bits|].
  split; [intros i; apply walked_never_clears|].
  split.
  { intros Hlack. pose proof (lacking_other_execute _ Hlack) as Hmask. split.
    - exact (Hasked p info Hr Hp Hmask).
    - intros Hperm. exact (walked_both_execute info Hperm Hmask). }
  split; [apply walked_refused|].
  intros q Hq. apply permWalk_unreached. exact Hq.
Qed.

End WalkFacts.

(** C8, as stated, fails here.  On the store path of [Mock.shared_store],
    [Create] runs to the end and succeeds.  Its walk reached the outermost
    directory and asked once for its mode to become 0711; the change was
    refused, the refusal was not looked at, and the directory is left with
    mode 0710, without the other-execute bit. *)
Lemma Create_leaves_directory_without_execute :
  let out := Create Mock.hv (Mock.run Mock.machine Mock.pristine Mock.shared_store) in
  snd out = None /\
  occurrences (CStat ["store"]) (calls (fst out)) = 1%nat /\
  occurrences (CChmod ["store"] (Z.lor Mock.ModeDir 457)) (calls (fst out)) = 1%nat /\
  Mode <$> files (fst out) !! ["store"] = Some (Z.lor Mock.ModeDir 456) /\
  Z.testbit (Z.lor Mock.ModeDir 456) 0 = false.
Proof.
  cbv zeta. repeat split; vm_compute; reflexivity.
Qed.

(** The walk over the same store path, at its innermost directory. *)
Lemma permWalk_sets_execute_bits_witness :
  exists info',
    files (fst (permWalk ["minikube"; "machines"; "store"]
                  (Mock.run Mock.machine Mock.pristine Mock.shared_store)))
      !! ["minikube"; "machines"; "store"] = Some info' /\
    Z.land (Mode info') 9 = 9.
Proof.
  destruct (permWalk_sets_execute_bits
              ["minikube"; "machines"; "store"] ["minikube"; "machines"; "store"]
              (Mock.run Mock.machine Mock.pristine Mock.shared_store)
              {| Mode := Z.lor Mock.ModeDir 448; chmod_permitted := true |})
    as (steps & info' & _ & Hlook & _ & _ & _ & Hset & _).
  - cbn. split; [vm_compute; eauto | left; reflexivity].
  - vm_compute. reflexivity.
  - exists info'. split; [exact Hlook|].
    apply Hset; reflexivity.
Defined.

(** ** Create: failure of the disk provisioner *)

Section CreateFacts.

Context {W : Type} (hv : Collaborators W).

(** The walk touches nothing but the file system and logs nothing but
    [os.Stat] and [os.Chmod]. *)
Lemma permWalk_frame (dir : path) (r : Run W) :
  drv (fst (permWalk dir r)) = drv r /\
  world (fst (permWalk dir r)) = world r /\
  exists steps, calls (fst (permWalk dir r)) = calls r ++ steps /\
                Forall (fun c => fs_call c = true) steps.
Proof.
  revert r. induction dir as [|x parent IH]; intros r.
  - cbn. repeat split. exists []. rewrite app_nil_r. split; constructor.
  - destruct (files r !! (x :: parent)) as [info|] eqn:Hdir.
    + rewrite (permWalk_cons x parent info r Hdir).
      destruct (IH (visit (x :: parent) info r)) as (Hd & Hw & steps & Hc & Hall).
      rewrite Hd, Hw, Hc. unfold visit.
      destruct (negb (Z.land (Mode info) 9 =? 1)); cbn [drv world calls];
        repeat split; eexists; rewrite <- app_assoc;
        (split; [reflexivity|]); repeat constructor; exact Hall.
    + cbn [permWalk]. unfold os_Stat. run_unfold. rewrite Hdir. cbn.
      repeat split. exists [CStat (x :: parent)]. split; [reflexivity|].
      repeat constructor.
Qed.

Lemma occurrences_fs_calls (c : Call) (steps : list Call) :
  fs_call c = false -> Forall (fun c' => fs_call c' = true) steps ->
  occurrences c steps = 0%nat.
Proof.
  intros Hc Hall. induction Hall as [|c' steps Hc' _ IH]; [reflexivity|].
  cbn. destruct (decide (c' = c)) as [-> | _]; [congruence | exact IH].
Qed.

(** C7. When the disk provisioner fails, [Create] returns its error wrapped
    as "Error creating disk" and stops there: the provisioner is the last
    collaborator called, the domain is neither defined nor started, and
    nothing that was set up before is destroyed or undefined. *)
Theorem Create_disk_failure_aborts (r r3 : Run W) (w1 w4 : W) (fs1 : FileSystem)
    (e : error) :
  createNetwork hv (drv r) (world r) = (w1, None) ->
  os_MkdirAll hv (ResolveStorePath (drv r)) 493 (files r) = (fs1, None) ->
  permWalk (ResolveStorePath (drv r)) (prepared r w1 fs1) = (r3, None) ->
  MakeDiskImage hv (drv r3) (Boot2DockerURL (drv r)) (DiskSize (drv r)) (world r3)
    = (w4, Some e) ->
  Create hv r =
    ({| drv := drv r3; world := w4; files := files r3;
        calls := calls r3 ++ [CMakeDiskImage (Boot2DockerURL (drv r)) (DiskSize (drv r))] |},
     Some (ErrWrap e "Error creating disk")) /\
  (forall c, In c [CcreateDomain; CgetDomain; CdomCreate; CdomDestroy; CdomUndefine;
                   CnetDestroy; CnetUndefine] ->
     occurrences c (calls (fst (Create hv r))) = occurrences c (calls r)).
Proof.
  intros Hnet Hmk Hwalk Hdisk.
  assert (HC : Create hv r =
    ({| drv := drv r3; world := w4; files := files r3;
        calls := calls r3 ++ [CMakeDiskImage (Boot2DockerURL (drv r)) (DiskSize (drv r))] |},
     Some (ErrWrap e "Error creating disk"))).
  { unfold Create. unfold prepared in Hwalk. run_unfold.
    rewrite Hnet. cbn [drv world files calls]. rewrite Hmk.
    cbn [drv world files calls]. rewrite <- app_assoc. cbn [app].
    rewrite Hwalk, Hdisk. reflexivity. }
  split; [exact HC|].
  intros c Hin. rewrite HC. cbn [fst calls].
  destruct (permWalk_frame (ResolveStorePath (drv r)) (prepared r w1 fs1))
    as (_ & _ & steps & Hc & Hall).
  rewrite Hwalk in Hc. cbn [fst] in Hc. rewrite Hc. unfold prepared. cbn [calls].
  rewrite !occurrences_app.
  assert (Hfs : fs_call c = false).
  { cbn in Hin. repeat destruct Hin as [<- | Hin]; try reflexivity; contradiction. }
  rewrite (occurrences_fs_calls c steps Hfs Hall).
  cbn in Hin.
  repeat destruct Hin as [<- | Hin]; try contradiction;
    rewrite (occurrences_absent _ [CcreateNetwork; _]),
            (occurrences_absent _ [CMakeDiskImage _ _]);
    first [lia | cbn; intuition discriminate].
Qed.

End CreateFacts.

(** [Create] on a simulated host whose disk provisioner fails. *)
Lemma Create_disk_failure_aborts_witness :
  let w := {| Mock.connect_ok := true; Mock.network_defined := false;
              Mock.domain_defined := false; Mock.native := libvirt.DOMAIN_NOSTATE;
              Mock.boots_to := libvirt.DOMAIN_RUNNING; Mock.lease_after := 2;
              Mock.lease := "192.168.39.7"; Mock.disk_ok := false;
              Mock.ssh_ok := true |} in
  let out := Create Mock.hv (Mock.run Mock.machine w ∅) in
  snd out = Some (ErrWrap Mock.diskFailure "Error creating disk") /\
  occurrences CcreateDomain (calls (fst out)) = 0%nat.
Proof.
  cbv zeta.
  match goal with |- context [Create Mock.hv ?x] => set (r := x) end.
  set (w1 := Mock.set_network_defined true (world r)).
  set (fs1 := fst (Mock.MkdirAll (ResolveStorePath (drv r)) 493 (files r))).
  set (r3 := fst (permWalk (ResolveStorePath (drv r)) (prepared r w1 fs1))).
  destruct (Create_disk_failure_aborts Mock.hv r r3 w1 (world r3) fs1 Mock.diskFailure)
    as (HC & Hno).
  - reflexivity.
  - vm_compute. reflexivity.
  - vm_compute. reflexivity.
  - vm_compute. reflexivity.
  - split.
    + rewrite HC. reflexivity.
    + rewrite (Hno CcreateDomain) by (left; reflexivity). reflexivity.
Defined.

(** * Further properties of kvm.go *)

Ltac run_unfold_all :=
  cbv [bind defer extern_ extern onFiles ret getDriver setIPAddress orReturn unlogged] in *;
  cbn [fst snd drv world files calls] in *.

(** ** Frames: what the operations may touch *)

Section FrameRules.

Context {W : Type}.

#[local] Instance log_grows_preorder (allowed : Call -> bool) :
  PreOrder (@log_grows W allowed).
Proof.
  split.
  - intros r. exists []. rewrite app_nil_r. split; reflexivity.
  - intros r1 r2 r3 (l1 & H1 & A1) (l2 & H2 & A2). exists (l1 ++ l2).
    rewrite H2, H1, <- app_assoc. split; [reflexivity|].
    rewrite forallb_app, A1, A2. reflexivity.
Qed.

#[local] Instance same_driver_preorder : PreOrder (@same_driver W).
Proof.
  split; [intros r; reflexivity|].
  intros r1 r2 r3 H1 H2. unfold same_driver in *. congruence.
Qed.

#[local] Instance same_but_IPAddress_preorder : PreOrder (@same_but_IPAddress W).
Proof.
  split; [intros r; reflexivity|].
  intros r1 r2 r3 H1 H2. unfold same_but_IPAddress in *. congruence.
Qed.

#[local] Instance same_files_preorder : PreOrder (@same_files W).
Proof.
  split; [intros r; reflexivity|].
  intros r1 r2 r3 H1 H2. unfold same_files in *. congruence.
Qed.

Lemma same_driver_but_IPAddress (r r' : Run W) :
  same_driver r r' -> same_but_IPAddress r r'.
Proof. unfold same_driver, same_but_IPAddress. intros ->. reflexivity. Qed.

Lemma log_grows_mono (P Q : Call -> bool) (r r' : Run W) :
  (forall c, P c = true -> Q c = true) -> log_grows P r r' -> log_grows Q r r'.
Proof.
  intros HPQ (l & Hl & Hall). exists l. split; [exact Hl|].
  apply forallb_forall. intros c Hc.
  apply HPQ. exact (proj1 (forallb_forall P l) Hall c Hc).
Qed.

(** A call that is not allowed does not get more frequent. *)
Lemma log_grows_occurrences (P : Call -> bool) (r r' : Run W) (c : Call) :
  log_grows P r r' -> P c = false ->
  occurrences c (calls r') = occurrences c (calls r).
Proof.
  intros (l & -> & Hall) Hc. rewrite occurrences_app.
  rewrite (occurrences_absent c l); [lia|].
  intros Hin. rewrite (proj1 (forallb_forall P l) Hall c Hin) in Hc. discriminate Hc.
Qed.

Section Generic.

Context (R : Run W -> Run W -> Prop) {HR : PreOrder R}.

Lemma frames_ret {A} (a : A) : frames R (ret a).
Proof. intros r. reflexivity. Qed.

Lemma frames_getDriver : frames R getDriver.
Proof. intros r. reflexivity. Qed.

Lemma frames_bind {A B} (m : M W A) (k : A -> M W B) :
  frames R m -> (forall a, frames R (k a)) -> frames R (bind m k).
Proof.
  intros Hm Hk r. unfold bind. specialize (Hm r).
  destruct (m r) as [r' a]. cbn [fst] in Hm.
  transitivity r'; [exact Hm | apply Hk].
Qed.

Lemma frames_defer {A} (cleanup : M W unit) (body : M W A) :
  frames R cleanup -> frames R body -> frames R (defer cleanup body).
Proof.
  intros Hc Hb. unfold defer. apply frames_bind; [exact Hb|].
  intros a. apply frames_bind; [exact Hc|]. intros _. apply frames_ret.
Qed.

Lemma frames_orReturn (step rest : M W (option error)) (wrap : error -> error) :
  frames R step -> frames R rest -> frames R (orReturn step wrap rest).
Proof.
  intros Hs Hr. unfold orReturn. apply frames_bind; [exact Hs|].
  intros [e|]; [apply frames_ret | exact Hr].
Qed.

End Generic.

Lemma frames_mono {A} (R R' : Run W -> Run W -> Prop) (m : M W A) :
  (forall r r', R r r' -> R' r r') -> frames R m -> frames R' m.
Proof. intros HRR Hm r. apply HRR, Hm. Qed.

(** The primitive steps. *)

Lemma extern_logs (P : Call -> bool) {A} (c : Call) (f : Driver -> W -> W * A) :
  P c = true -> frames (log_grows P) (extern c f).
Proof.
  intros Hc r. unfold extern. destruct (f (drv r) (world r)) as [w' a]. cbn.
  exists [c]. split; [reflexivity|]. cbn. rewrite Hc. reflexivity.
Qed.

Lemma extern__logs (P : Call -> bool) (c : Call) (f : W -> W) :
  P c = true -> frames (log_grows P) (extern_ c f).
Proof. intros Hc. unfold extern_. apply extern_logs. exact Hc. Qed.

Lemma onFiles_logs (P : Call -> bool) {A} (c : Call)
    (f : FileSystem -> FileSystem * A) :
  P c = true -> frames (@log_grows W P) (onFiles c f).
Proof.
  intros Hc r. unfold onFiles. destruct (f (files r)) as [fs' a]. cbn.
  exists [c]. split; [reflexivity|]. cbn. rewrite Hc. reflexivity.
Qed.

Lemma setIPAddress_logs (P : Call -> bool) (ip : string) :
  frames (@log_grows W P) (setIPAddress ip).
Proof. intros r. cbn. exists []. rewrite app_nil_r. split; reflexivity. Qed.

Lemma unlogged_logs (P : Call -> bool) {A} (f : W -> W * A) :
  frames (log_grows P) (unlogged f).
Proof.
  intros r. unfold unlogged. destruct (f (world r)) as [w' a]. cbn.
  exists []. rewrite app_nil_r. split; reflexivity.
Qed.

Lemma extern_same_driver {A} (c : Call) (f : Driver -> W -> W * A) :
  frames same_driver (extern c f).
Proof.
  intros r. unfold extern. destruct (f (drv r) (world r)) as [w' a]. reflexivity.
Qed.

Lemma extern__same_driver (c : Call) (f : W -> W) :
  frames same_driver (extern_ c f).
Proof. unfold extern_. apply extern_same_driver. Qed.

Lemma onFiles_same_driver {A} (c : Call) (f : FileSystem -> FileSystem * A) :
  frames (@same_driver W) (onFiles c f).
Proof. intros r. unfold onFiles. destruct (f (files r)) as [fs' a]. reflexivity. Qed.

Lemma unlogged_same_driver {A} (f : W -> W * A) : frames same_driver (unlogged f).
Proof. intros r. unfold unlogged. destruct (f (world r)) as [w' a]. reflexivity. Qed.

Lemma setIPAddress_same_but_IPAddress (ip : string) :
  frames (@same_but_IPAddress W) (setIPAddress ip).
Proof. intros r. reflexivity. Qed.

Lemma extern_same_files {A} (c : Call) (f : Driver -> W -> W * A) :
  frames same_files (extern c f).
Proof.
  intros r. unfold extern. destruct (f (drv r) (world r)) as [w' a]. reflexivity.
Qed.

Lemma extern__same_files (c : Call) (f : W -> W) : frames same_files (extern_ c f).
Proof. unfold extern_. apply extern_same_files. Qed.

Lemma unlogged_same_files {A} (f : W -> W * A) : frames same_files (unlogged f).
Proof. intros r. unfold unlogged. destruct (f (world r)) as [w' a]. reflexivity. Qed.

Lemma setIPAddress_same_files (ip : string) : frames (@same_files W) (setIPAddress ip).
Proof. intros r. reflexivity. Qed.

End FrameRules.

#[local] Existing Instance log_grows_preorder.
#[local] Existing Instance same_driver_preorder.
#[local] Existing Instance same_but_IPAddress_preorder.
#[local] Existing Instance same_files_preorder.

(** Takes a frame goal apart along the structure of the operation; [known]
    closes the goals about operations proved earlier. *)
Ltac frames_with known :=
  repeat first
    [ apply frames_ret; tc_solve
    | apply frames_getDriver; tc_solve
    | apply frames_bind; [tc_solve | | intros ?]
    | apply frames_defer; [tc_solve | | ]
    | apply frames_orReturn; [tc_solve | | ]
    | apply extern_logs; reflexivity
    | apply extern__logs; reflexivity
    | apply onFiles_logs; reflexivity
    | apply setIPAddress_logs
    | apply unlogged_logs
    | apply extern_same_driver
    | apply extern__same_driver
    | apply onFiles_same_driver
    | apply unlogged_same_driver
    | apply extern_same_files
    | apply extern__same_files
    | apply unlogged_same_files
    | apply setIPAddress_same_files
    | apply setIPAddress_same_but_IPAddress
    | assumption
    | known
    | match goal with
      | |- frames _ (match ?x with _ => _ end) => destruct x
      end
    | apply (frames_mono same_driver same_but_IPAddress);
        [exact same_driver_but_IPAddress|] ].

Section StateFrames.

Context {W : Type} (hv : Collaborators W).

Lemma GetState_logs : frames (log_grows state_call) (GetState hv).
Proof. unfold GetState. frames_with fail. Qed.

Lemma GetState_same_driver : frames same_driver (GetState hv).
Proof. unfold GetState. frames_with fail. Qed.

Lemma GetState_same_files : frames same_files (GetState hv).
Proof. unfold GetState. frames_with fail. Qed.

End StateFrames.

Lemma state_call_ip_call (c : Call) : state_call c = true -> ip_call c = true.
Proof. destruct c; cbn; intros H; try discriminate H; reflexivity. Qed.

Lemma ip_call_start_call (c : Call) : ip_call c = true -> start_call c = true.
Proof. destruct c; cbn; intros H; try discriminate H; reflexivity. Qed.

Lemma state_call_stop_call (c : Call) : state_call c = true -> stop_call c = true.
Proof. destruct c; cbn; intros H; try discriminate H; reflexivity. Qed.

Lemma start_call_create_call (c : Call) : start_call c = true -> create_call c = true.
Proof.
  destruct c; cbn; intros H; try discriminate H; try reflexivity.
  rewrite H. reflexivity.
Qed.

Lemma fs_call_create_call (c : Call) : fs_call c = true -> create_call c = true.
Proof. destruct c; cbn; intros H; try discriminate H; reflexivity. Qed.

Section OperationFrames.

Context {W : Type} (hv : Collaborators W).

Ltac known_state :=
  first
    [ apply GetState_same_driver
    | apply GetState_same_files
    | apply GetState_logs
    | apply (frames_mono (log_grows state_call) (log_grows ip_call));
        [intros ? ?; apply log_grows_mono; exact state_call_ip_call
        | apply GetState_logs]
    | apply (frames_mono (log_grows state_call) (log_grows stop_call));
        [intros ? ?; apply log_grows_mono; exact state_call_stop_call
        | apply GetState_logs] ].

Lemma GetIP_logs : frames (log_grows ip_call) (GetIP hv).
Proof. unfold GetIP. frames_with known_state. Qed.

Lemma GetIP_same_driver : frames same_driver (GetIP hv).
Proof. unfold GetIP. frames_with known_state. Qed.

Lemma GetIP_same_files : frames same_files (GetIP hv).
Proof. unfold GetIP. frames_with known_state. Qed.

Ltac known_ip :=
  first
    [ apply GetIP_same_driver
    | apply GetIP_same_files
    | apply (frames_mono (log_grows ip_call) (log_grows start_call));
        [intros ? ?; apply log_grows_mono; exact ip_call_start_call
        | apply GetIP_logs] ].

Lemma waitForIP_logs (n : nat) : frames (log_grows start_call) (waitForIP hv n).
Proof. induction n as [|n IH]; cbn [waitForIP]; frames_with known_ip. Qed.

Lemma waitForIP_same_but_IPAddress (n : nat) :
  frames same_but_IPAddress (waitForIP hv n).
Proof. induction n as [|n IH]; cbn [waitForIP]; frames_with known_ip. Qed.

Lemma waitForIP_same_files (n : nat) : frames same_files (waitForIP hv n).
Proof. induction n as [|n IH]; cbn [waitForIP]; frames_with known_ip. Qed.

Ltac known_wait :=
  first
    [ apply waitForIP_logs
    | apply waitForIP_same_but_IPAddress
    | apply waitForIP_same_files ].

Lemma Start_logs : frames (log_grows start_call) (Start hv).
Proof. unfold Start. frames_with known_wait. Qed.

Lemma Start_same_but_IPAddress : frames same_but_IPAddress (Start hv).
Proof. unfold Start. frames_with known_wait. Qed.

Lemma Start_same_files : frames same_files (Start hv).
Proof. unfold Start. frames_with known_wait. Qed.

Lemma waitForStop_logs (n : nat) : frames (log_grows stop_call) (waitForStop hv n).
Proof. induction n as [|n IH]; cbn [waitForStop]; frames_with known_state. Qed.

Lemma waitForStop_same_driver (n : nat) : frames same_driver (waitForStop hv n).
Proof. induction n as [|n IH]; cbn [waitForStop]; frames_with known_state. Qed.

Lemma waitForStop_same_files (n : nat) : frames same_files (waitForStop hv n).
Proof. induction n as [|n IH]; cbn [waitForStop]; frames_with known_state. Qed.

Ltac known_stop :=
  first
    [ apply waitForStop_logs
    | apply waitForStop_same_driver
    | apply waitForStop_same_files
    | known_state ].

Lemma Stop_logs : frames (log_grows stop_call) (Stop hv).
Proof. unfold Stop. frames_with known_stop. Qed.

Lemma Stop_same_files : frames same_files (Stop hv).
Proof. unfold Stop. frames_with known_stop. Qed.

Lemma permWalk_logs (dir : path) : frames (@log_grows W fs_call) (permWalk dir).
Proof. induction dir as [|x parent IH]; cbn [permWalk]; frames_with fail. Qed.

Lemma permWalk_same_driver (dir : path) : frames (@same_driver W) (permWalk dir).
Proof. induction dir as [|x parent IH]; cbn [permWalk]; frames_with fail. Qed.

Ltac known_create :=
  first
    [ apply (frames_mono (log_grows start_call) (log_grows create_call));
        [intros ? ?; apply log_grows_mono; exact start_call_create_call
        | apply Start_logs]
    | apply (frames_mono (log_grows fs_call) (log_grows create_call));
        [intros ? ?; apply log_grows_mono; exact fs_call_create_call
        | apply permWalk_logs]
    | apply Start_same_but_IPAddress
    | apply (frames_mono same_driver same_but_IPAddress);
        [exact same_driver_but_IPAddress | apply permWalk_same_driver] ].

Lemma Create_logs : frames (log_grows create_call) (Create hv).
Proof. unfold Create. frames_with known_create. Qed.

Lemma Create_same_but_IPAddress : frames same_but_IPAddress (Create hv).
Proof. unfold Create. frames_with known_create. Qed.

Lemma Remove_logs : frames (log_grows remove_call) (Remove hv).
Proof. unfold Remove. frames_with fail. Qed.

Lemma Remove_same_driver : frames same_driver (Remove hv).
Proof. unfold Remove. frames_with fail. Qed.

Lemma Remove_same_files : frames same_files (Remove hv).
Proof. unfold Remove. frames_with fail. Qed.

Lemma Kill_logs : frames (log_grows kill_call) (Kill hv).
Proof. unfold Kill. frames_with fail. Qed.

Lemma Kill_same_driver : frames same_driver (Kill hv).
Proof. unfold Kill. frames_with fail. Qed.

Lemma Kill_same_files : frames same_files (Kill hv).
Proof. unfold Kill. frames_with fail. Qed.

End OperationFrames.

(** ** GetState and GetIP: failures and frames *)

Section QueryFacts.

Context {W : Type} (hv : Collaborators W).


(** X2. [GetIP] is a query: on every path it leaves the driver record (so it
    never records the address it found) and the files as they are, calls
    nothing but the domain lookup, the state query, the release and the
    address lookup, and hands back the empty address with every error. *)
Theorem GetIP_is_a_query (r : Run W) :
  drv (fst (GetIP hv r)) = drv r /\
  files (fst (GetIP hv r)) = files r /\
  log_grows ip_call r (fst (GetIP hv r)) /\
  (fst (snd (GetIP hv r)) = "" \/ snd (snd (GetIP hv r)) = None).
Proof.
  split; [apply (GetIP_same_driver hv r)|].
  split; [apply (GetIP_same_files hv r)|].
  split; [apply (GetIP_logs hv r)|].
  rewrite GetIP_unfold.
  destruct (GetState hv r) as [r' [s [e|]]]; [left; reflexivity|].
  destruct (negb (state.eqb s state.Running)); [left; reflexivity|].
  destruct (lookupIP hv (drv r') (world r')) as [w' [ip|e]];
    [right | left]; reflexivity.
Qed.

(** X3. When the domain cannot be looked up, [GetIP] does not answer "host is
    not running": it returns the lookup error wrapped twice, as "getting
    connection" and then as "machine in unknown state", after the one failed
    call. *)
Theorem GetIP_without_domain (r : Run W) (w1 : W) (e0 : error) :
  getDomain hv (drv r) (world r) = (w1, Some e0) ->
  GetIP hv r =
    ({| drv := drv r; world := w1; files := files r; calls := calls r ++ [CgetDomain] |},
     ("", Some (ErrWrap (ErrWrap e0 "getting connection") "machine in unknown state"))).
Proof.
  intros Hdom. unfold GetIP, GetState. run_unfold. rewrite Hdom. reflexivity.
Qed.

End QueryFacts.


Lemma GetIP_without_domain_witness :
  snd (GetIP Mock.hv (Mock.run Mock.machine Mock.pristine ∅))
  = ("", Some (ErrWrap (ErrWrap Mock.noDomain "getting connection")
                 "machine in unknown state")).
Proof.
  rewrite (GetIP_without_domain Mock.hv (Mock.run Mock.machine Mock.pristine ∅)
             Mock.pristine Mock.noDomain eq_refl).
  reflexivity.
Defined.

(** ** Kill, PreCommandCheck and GetURL *)

Section KillAndURLFacts.

Context {W : Type} (hv : Collaborators W).
Context (ver : W -> W * (Z + error)).

(** X4. [Kill] asks for the domain handle and destroys the domain without
    looking at its state; it returns what [dom.Destroy] returned, unwrapped,
    releases the handle whatever that was, and leaves the driver record, the
    recorded address included, as it is. *)
Theorem Kill_destroys_without_asking (r : Run W) (w1 w2 : W) (res : option error) :
  getDomain hv (drv r) (world r) = (w1, None) ->
  dom_Destroy hv w1 = (w2, res) ->
  Kill hv r =
    ({| drv := drv r; world := closeDomain hv w2; files := files r;
        calls := calls r ++ [CgetDomain; CdomDestroy; CcloseDomain] |}, res).
Proof.
  intros Hdom Hd. unfold Kill. run_unfold.
  rewrite Hdom. cbn [world]. rewrite Hd. cbn. rewrite <- !app_assoc. reflexivity.
Qed.

(** X5. [PreCommandCheck] opens a connection and never closes it, whether
    the check succeeds or fails; the driver record and the files are left
    alone. *)
Theorem PreCommandCheck_leaves_connection_open (r : Run W) :
  calls (fst (PreCommandCheck hv ver r)) = calls r ++ [CgetConnection] /\
  occurrences CconnClose (calls (fst (PreCommandCheck hv ver r)))
    = occurrences CconnClose (calls r) /\
  drv (fst (PreCommandCheck hv ver r)) = drv r /\
  files (fst (PreCommandCheck hv ver r)) = files r.
Proof.
  assert (H : calls (fst (PreCommandCheck hv ver r)) = calls r ++ [CgetConnection] /\
              drv (fst (PreCommandCheck hv ver r)) = drv r /\
              files (fst (PreCommandCheck hv ver r)) = files r).
  { unfold PreCommandCheck. run_unfold_all.
    destruct (getConnection hv (world r)) as [w1 [e|]]; cbn; [auto|].
    destruct (ver w1) as [w2 [v|e]]; cbn; auto. }
  destruct H as (Hc & Hd & Hf). repeat split; try assumption.
  rewrite Hc, occurrences_app. simpl. lia.
Qed.

Lemma GetURL_unfold (r : Run W) :
  GetURL hv ver r =
    let (r1, err) := PreCommandCheck hv ver r in
    match err with
    | Some e => (r1, ("", Some (ErrWrap e "getting URL, precheck failed")))
    | None =>
        let '(r2, (ip, err)) := GetIP hv r1 in
        match err with
        | Some e => (r2, ("", Some (ErrWrap e "getting URL, could not get IP")))
        | None => (r2, (if String.eqb ip "" then "" else tcpURL ip, None))
        end
    end.
Proof.
  unfold GetURL. cbv [bind ret].
  destruct (PreCommandCheck hv ver r) as [r1 [e|]]; [reflexivity|].
  destruct (GetIP hv r1) as [r2 [ip [e|]]]; [reflexivity|].
  destruct (String.eqb ip ""); reflexivity.
Qed.

(** X6. [GetURL] returns a non-empty URL only together with a nil error, and
    then the URL is tcp://ADDRESS:2376 for the non-empty address that [GetIP]
    returned after a successful pre-check. *)
Theorem GetURL_url_needs_address (r : Run W) :
  fst (snd (GetURL hv ver r)) = "" \/
  (snd (snd (GetURL hv ver r)) = None /\
   exists r1 r2 ip,
     PreCommandCheck hv ver r = (r1, None) /\
     GetIP hv r1 = (r2, (ip, None)) /\ ip <> "" /\
     fst (snd (GetURL hv ver r)) = tcpURL ip).
Proof.
  rewrite GetURL_unfold.
  destruct (PreCommandCheck hv ver r) as [r1 [e|]] eqn:HP; [left; reflexivity|].
  destruct (GetIP hv r1) as [r2 [ip [e|]]] eqn:HG; [left; reflexivity|].
  destruct (String.eqb_spec ip "") as [-> | Hne]; [left; reflexivity|].
  right. split; [reflexivity|]. exists r1, r2, ip. auto.
Qed.

(** X7. When the connection cannot be opened, [GetURL] returns the empty URL
    with the error wrapped by the pre-check and again as "getting URL,
    precheck failed", and never asks for the domain. *)
Theorem GetURL_without_connection (r : Run W) (w1 : W) (e0 : error) :
  getConnection hv (world r) = (w1, Some e0) ->
  GetURL hv ver r =
    ({| drv := drv r; world := w1; files := files r;
        calls := calls r ++ [CgetConnection] |},
     ("", Some (ErrWrap
        (ErrWrap e0
           "Error connecting to libvirt socket.  Have you added yourself to the libvirtd group?")
        "getting URL, precheck failed"))).
Proof.
  intros Hc. unfold GetURL, PreCommandCheck. run_unfold_all. rewrite Hc. reflexivity.
Qed.

(** X8. On a machine that is not running, [GetURL] is an error, not an empty
    URL: it returns "host is not running" wrapped as "getting URL, could not
    get IP". *)
Theorem GetURL_when_not_running (r r1 r2 : Run W) (s : state.State) :
  PreCommandCheck hv ver r = (r1, None) ->
  GetState hv r1 = (r2, (s, None)) ->
  s <> state.Running ->
  GetURL hv ver r =
    (r2, ("", Some (ErrWrap (ErrNew "host is not running")
                      "getting URL, could not get IP"))).
Proof.
  intros HP HS Hs. rewrite GetURL_unfold, HP.
  rewrite (GetIP_when_not_running hv r1 r2 s HS Hs). reflexivity.
Qed.

End KillAndURLFacts.

Lemma Kill_destroys_without_asking_witness :
  let out := Kill Mock.hv (Mock.run (with_IPAddress "192.168.39.7" Mock.machine) Lab.up ∅) in
  snd out = None /\ IPAddress (drv (fst out)) = "192.168.39.7" /\
  calls (fst out) = [CgetDomain; CdomDestroy; CcloseDomain].
Proof.
  cbv zeta.
  rewrite (Kill_destroys_without_asking Mock.hv
             (Mock.run (with_IPAddress "192.168.39.7" Mock.machine) Lab.up ∅)
             Lab.up (Mock.set_native libvirt.DOMAIN_SHUTOFF Lab.up) None
             eq_refl eq_refl).
  repeat split.
Defined.

Lemma GetURL_without_connection_witness :
  fst (snd (GetURL (Lab.hv Lab.sound) (Lab.GetLibVersion false)
              (Lab.run Mock.machine (Lab.host Lab.offline 1 0) ∅))) = "".
Proof.
  rewrite (GetURL_without_connection (Lab.hv Lab.sound) (Lab.GetLibVersion false)
             (Lab.run Mock.machine (Lab.host Lab.offline 1 0) ∅)
             (Lab.host Lab.offline 1 0) Mock.unreachable eq_refl).
  reflexivity.
Defined.

Lemma GetURL_when_not_running_witness :
  snd (GetURL (Lab.hv Lab.sound) (Lab.GetLibVersion false)
         (Lab.run Mock.machine (Lab.host Mock.healthy 1 0) ∅))
  = ("", Some (ErrWrap (ErrNew "host is not running") "getting URL, could not get IP")).
Proof.
  rewrite (GetURL_when_not_running (Lab.hv Lab.sound) (Lab.GetLibVersion false)
             (Lab.run Mock.machine (Lab.host Mock.healthy 1 0) ∅) _ _ state.Stopped
             eq_refl eq_refl); [reflexivity | discriminate].
Defined.

(** ** Start: success, early failure, footprint *)

Section MoreStartFacts.

Context {W : Type} (hv : Collaborators W).

Lemma waitForIP_app (k n : nat) (r : Run W) :
  always_empty hv k r ->
  waitForIP hv (k + n) r = waitForIP hv n (fst (waitForIP hv k r)).
Proof.
  revert r. induction k as [|k IH]; intros r Hall; [reflexivity|].
  destruct Hall as (r' & HG & Hall).
  change (S k + n)%nat with (S (k + n)).
  rewrite !waitForIP_unfold, HG. cbn [String.eqb]. apply IH. exact Hall.
Qed.

(** X9. When the first [k] attempts (k at most 40) get an empty address and
    the next one gets a non-empty address, and the SSH endpoint then answers,
    [Start] succeeds with that address recorded, having slept exactly [k]
    times three seconds. *)
Theorem Start_succeeds_after_empty_polls (r r' : Run W) (w1 w2 w4 : W) (k : nat)
    (ip : string) :
  getDomain hv (drv r) (world r) = (w1, None) ->
  dom_Create hv w1 = (w2, None) ->
  (k < ipAttempts)%nat ->
  always_empty hv k (booted r w2) ->
  GetIP hv (fst (waitForIP hv k (booted r w2))) = (r', (ip, None)) ->
  ip <> "" ->
  WaitForSSH hv (with_IPAddress ip (drv r')) (world r') = (w4, None) ->
  snd (Start hv r) = None /\
  IPAddress (drv (fst (Start hv r))) = ip /\
  occurrences (CSleep 3) (calls (fst (Start hv r)))
    = (occurrences (CSleep 3) (calls r) + k)%nat.
Proof.
  intros Hdom Hcreate Hk Hall HG Hip Hssh.
  destruct (waitForIP_always_empty hv k _ Hall) as (_ & _ & Hsleeps & _).
  pose proof (GetIP_frame hv (fst (waitForIP hv k (booted r w2)))) as (_ & Hs & _).
  rewrite HG in Hs. cbn [fst] in Hs.
  rewrite (Start_unfold hv r w1 w2 Hdom Hcreate).
  replace ipAttempts with (k + S (ipAttempts - S k))%nat by lia.
  rewrite (waitForIP_app k _ _ Hall), waitForIP_unfold, HG.
  apply String.eqb_neq in Hip. rewrite Hip.
  change (drv (recorded ip r')) with (with_IPAddress ip (drv r')).
  change (world (recorded ip r')) with (world r').
  change (IPAddress (with_IPAddress ip (drv r'))) with ip.
  rewrite Hip, Hssh.
  unfold closed, recorded. run_unfold.
  split; [reflexivity|]. split; [reflexivity|].
  rewrite !occurrences_app, Hs, Hsleeps. unfold booted. cbn [calls].
  rewrite occurrences_app. simpl. lia.
Qed.

(** X10. When the domain cannot be booted, [Start] returns the error wrapped
    as "Error creating VM" after releasing the handle: it does not poll, does
    not wait for SSH and leaves the recorded address as it was. *)
Theorem Start_cannot_boot (r : Run W) (w1 w2 : W) (e : error) :
  getDomain hv (drv r) (world r) = (w1, None) ->
  dom_Create hv w1 = (w2, Some e) ->
  Start hv r =
    ({| drv := drv r; world := closeDomain hv w2; files := files r;
        calls := calls r ++ [CgetDomain; CdomCreate; CcloseDomain] |},
     Some (ErrWrap e "Error creating VM")).
Proof.
  intros Hdom Hcreate. unfold Start. run_unfold.
  rewrite Hdom. cbn [world]. rewrite Hcreate. cbn.
  rewrite <- !app_assoc. reflexivity.
Qed.

(** X11. On every path the statements of [Start] issue no call other than
    the domain lookup and release, [dom.Create], the state and address
    queries, the three-second sleep and the SSH wait: [Start] itself never
    requests a shutdown and never destroys or undefines anything. *)
Theorem Start_footprint (r : Run W) (c : Call) :
  start_call c = false ->
  occurrences c (calls (fst (Start hv r))) = occurrences c (calls r).
Proof.
  intros Hc.
  exact (log_grows_occurrences start_call _ _ c (Start_logs hv r) Hc).
Qed.

(** X12. Once [Start] has obtained the domain handle, the last thing it does
    on every exit path is to release it. *)
Theorem Start_releases_domain (r : Run W) (w1 : W) :
  getDomain hv (drv r) (world r) = (w1, None) ->
  last (calls (fst (Start hv r))) = Some CcloseDomain.
Proof.
  intros Hdom.
  destruct (dom_Create hv w1) as [w2 [e|]] eqn:Hcreate.
  - unfold Start. run_unfold. rewrite Hdom. cbn [world]. rewrite Hcreate. cbn.
    apply last_snoc.
  - rewrite (Start_unfold hv r w1 w2 Hdom Hcreate).
    destruct (waitForIP hv ipAttempts (booted r w2)) as [r3 [e|]];
      [apply last_snoc|].
    destruct (String.eqb (IPAddress (drv r3)) ""); [apply last_snoc|].
    destruct (WaitForSSH hv (drv r3) (world r3)) as [w4 [e|]]; apply last_snoc.
Qed.

End MoreStartFacts.

Lemma Start_succeeds_after_empty_polls_witness :
  let out := Start Mock.hv (Mock.run Mock.machine Mock.healthy ∅) in
  snd out = None /\ IPAddress (drv (fst out)) = "192.168.39.7" /\
  occurrences (CSleep 3) (calls (fst out)) = 2%nat.
Proof.
  cbv zeta.
  set (r := Mock.run Mock.machine Mock.healthy ∅).
  set (w2 := Mock.set_native libvirt.DOMAIN_RUNNING Mock.healthy).
  destruct (Start_succeeds_after_empty_polls Mock.hv r
              (fst (GetIP Mock.hv (fst (waitForIP Mock.hv 2 (booted r w2)))))
              Mock.healthy w2 (Mock.set_lease_after 0 w2) 2 "192.168.39.7")
    as (H1 & H2 & H3).
  - reflexivity.
  - reflexivity.
  - vm_compute. lia.
  - vm_compute. eauto.
  - vm_compute. reflexivity.
  - discriminate.
  - vm_compute. reflexivity.
  - split; [exact H1|]. split; [exact H2 | exact H3].
Defined.

Lemma Start_cannot_boot_witness :
  let out := Start (Lab.hv (Lab.only CdomCreate))
               (Lab.run (with_IPAddress "10.0.0.1" Mock.machine)
                  (Lab.host Mock.healthy 1 0) ∅) in
  snd out = Some (ErrWrap Lab.fault "Error creating VM") /\
  IPAddress (drv (fst out)) = "10.0.0.1".
Proof.
  cbv zeta.
  rewrite (Start_cannot_boot (Lab.hv (Lab.only CdomCreate))
             (Lab.run (with_IPAddress "10.0.0.1" Mock.machine)
                (Lab.host Mock.healthy 1 0) ∅)
             (Lab.host Mock.healthy 0 0) (Lab.host Mock.healthy 0 0) Lab.fault
             eq_refl eq_refl).
  split; reflexivity.
Defined.

Lemma Start_footprint_witness :
  occurrences CdomDestroy
    (calls (fst (Start Mock.hv (Mock.run Mock.machine Mock.healthy ∅)))) = 0%nat.
Proof.
  rewrite (Start_footprint Mock.hv (Mock.run Mock.machine Mock.healthy ∅)
             CdomDestroy eq_refl).
  reflexivity.
Defined.

Lemma Start_releases_domain_witness :
  last (calls (fst (Start Mock.hv (Mock.run Mock.machine Mock.healthy ∅))))
  = Some CcloseDomain.
Proof.
  exact (Start_releases_domain Mock.hv (Mock.run Mock.machine Mock.healthy ∅)
           Mock.healthy eq_refl).
Defined.

(** ** Stop: success, budget, early failures, footprint *)

Section MoreStopFacts.

Context {W : Type} (hv : Collaborators W).

Lemma waitForStop_unfold (n : nat) (r : Run W) :
  waitForStop hv (S n) r =
    let '(r', (s, err)) := GetState hv r in
    match err with
    | Some e => (r', Some (Some (ErrWrap e "Error getting state of VM")))
    | None =>
        if state.eqb s state.Stopped then (r', Some None)
        else waitForStop hv n (slept1 hv r')
    end.
Proof.
  cbn [waitForStop]. unfold slept1. run_unfold.
  destruct (GetState hv r) as [r' [s [e|]]]; [reflexivity|].
  destruct (state.eqb s state.Stopped); reflexivity.
Qed.

Lemma GetState_no_sleep (r : Run W) (seconds : Z) :
  occurrences (CSleep seconds) (calls (fst (GetState hv r)))
  = occurrences (CSleep seconds) (calls r).
Proof.
  apply (log_grows_occurrences state_call); [apply GetState_logs | reflexivity].
Qed.

Lemma still_upb_correct (n : nat) (r : Run W) :
  still_upb hv n r = true -> still_up hv n r.
Proof.
  revert r. induction n as [|n IH]; intros r H; [exact I|].
  cbn [still_upb] in H.
  destruct (GetState hv r) as [r' [s [e|]]] eqn:HS; [discriminate H|].
  apply andb_true_iff in H as [Hs Hup].
  exists r', s. split; [exact HS|]. split.
  - apply state_eqb_neq. destruct (state.eqb s state.Stopped); [discriminate Hs | reflexivity].
  - apply IH. exact Hup.
Qed.

(** As long as the domain is seen up, the loop keeps polling and sleeping. *)
Lemma waitForStop_still_up (n : nat) (r : Run W) :
  still_up hv n r ->
  snd (waitForStop hv n r) = None /\
  occurrences (CSleep 1) (calls (fst (waitForStop hv n r)))
    = (occurrences (CSleep 1) (calls r) + n)%nat.
Proof.
  revert r. induction n as [|n IH]; intros r Hup.
  - cbn. split; [reflexivity | lia].
  - destruct Hup as (r' & s & HS & Hs & Hup).
    pose proof (GetState_no_sleep r 1) as Hno. rewrite HS in Hno. cbn [fst] in Hno.
    rewrite waitForStop_unfold, HS.
    apply state_eqb_neq in Hs. rewrite Hs.
    destruct (IH _ Hup) as (H1 & H2). rewrite H1, H2.
    unfold slept1. run_unfold. rewrite occurrences_app, Hno. simpl.
    split; [reflexivity | lia].
Qed.

Lemma waitForStop_app (k n : nat) (r : Run W) :
  still_up hv k r ->
  waitForStop hv (k + n) r = waitForStop hv n (fst (waitForStop hv k r)).
Proof.
  revert r. induction k as [|k IH]; intros r Hup; [reflexivity|].
  destruct Hup as (r' & s & HS & Hs & Hup).
  change (S k + n)%nat with (S (k + n)).
  rewrite !waitForStop_unfold, HS.
  apply state_eqb_neq in Hs. rewrite Hs. apply IH. exact Hup.
Qed.

Lemma Stop_unfold (r r1 : Run W) (s : state.State) (w2 w3 : W) :
  GetState hv (cleared r) = (r1, (s, None)) ->
  s <> state.Stopped ->
  getDomain hv (drv r1) (world r1) = (w2, None) ->
  dom_Shutdown hv w2 = (w3, None) ->
  Stop hv r =
    let (r4, out) := waitForStop hv stopAttempts (halting r1 w3) in
    (closed hv r4,
     match out with
     | Some res => res
     | None => Some (ErrErrorf "Could not stop VM, current state %s" s)
     end).
Proof.
  intros HS Hs Hdom Hshut. unfold Stop. unfold cleared in HS.
  unfold closed, halting. run_unfold.
  rewrite HS. apply state_eqb_neq in Hs. rewrite Hs. cbn [negb].
  rewrite Hdom. cbn [world]. rewrite Hshut.
  cbn [drv world files calls]. rewrite <- app_assoc. cbn [app].
  destruct (waitForStop hv stopAttempts _) as [r4 [res|]]; reflexivity.
Qed.

(** X13. When the machine is not stopped, the shutdown request is accepted
    and the domain is seen stopped on poll k+1 (k below 60), [Stop] returns
    success after exactly [k] sleeps of one second. *)
Theorem Stop_succeeds_within_budget (r r1 r5 : Run W) (s : state.State)
    (w2 w3 : W) (k : nat) :
  GetState hv (cleared r) = (r1, (s, None)) ->
  s <> state.Stopped ->
  getDomain hv (drv r1) (world r1) = (w2, None) ->
  dom_Shutdown hv w2 = (w3, None) ->
  (k < stopAttempts)%nat ->
  still_up hv k (halting r1 w3) ->
  GetState hv (fst (waitForStop hv k (halting r1 w3))) = (r5, (state.Stopped, None)) ->
  snd (Stop hv r) = None /\
  occurrences (CSleep 1) (calls (fst (Stop hv r)))
    = (occurrences (CSleep 1) (calls r) + k)%nat.
Proof.
  intros HS Hs Hdom Hshut Hk Hup Hdown.
  pose proof (GetState_no_sleep (cleared r) 1) as Hn1. rewrite HS in Hn1.
  pose proof (GetState_no_sleep (fst (waitForStop hv k (halting r1 w3))) 1) as Hn5.
  rewrite Hdown in Hn5. cbn [fst] in Hn1, Hn5.
  destruct (waitForStop_still_up k _ Hup) as (_ & Hsleeps).
  rewrite (Stop_unfold r r1 s w2 w3 HS Hs Hdom Hshut).
  replace stopAttempts with (k + S (stopAttempts - S k))%nat by lia.
  rewrite (waitForStop_app k _ _ Hup), waitForStop_unfold, Hdown.
  cbn [state.eqb]. unfold closed. run_unfold.
  split; [reflexivity|].
  rewrite occurrences_app, Hn5, Hsleeps. unfold halting. cbn [calls].
  rewrite occurrences_app, Hn1. simpl. lia.
Qed.

(** X14. When the domain is still not seen stopped on any of the 60 polls,
    [Stop] returns "Could not stop VM, current state S" where S is the state
    it saw before it asked for the shutdown, not one of the states it polled;
    it has slept 60 times one second and has not destroyed the domain. *)
Theorem Stop_budget_exhausted (r r1 : Run W) (s : state.State) (w2 w3 : W) :
  GetState hv (cleared r) = (r1, (s, None)) ->
  s <> state.Stopped ->
  getDomain hv (drv r1) (world r1) = (w2, None) ->
  dom_Shutdown hv w2 = (w3, None) ->
  still_up hv stopAttempts (halting r1 w3) ->
  snd (Stop hv r) = Some (ErrErrorf "Could not stop VM, current state %s" s) /\
  occurrences (CSleep 1) (calls (fst (Stop hv r)))
    = (occurrences (CSleep 1) (calls r) + 60)%nat /\
  occurrences CdomDestroy (calls (fst (Stop hv r))) = occurrences CdomDestroy (calls r).
Proof.
  intros HS Hs Hdom Hshut Hup.
  split; [|split].
  - rewrite (Stop_unfold r r1 s w2 w3 HS Hs Hdom Hshut).
    destruct (waitForStop_still_up _ _ Hup) as (Hout & _).
    destruct (waitForStop hv stopAttempts (halting r1 w3)) as [r4 out].
    cbn [snd] in Hout. subst out. reflexivity.
  - pose proof (GetState_no_sleep (cleared r) 1) as Hn1. rewrite HS in Hn1.
    cbn [fst] in Hn1.
    rewrite (Stop_unfold r r1 s w2 w3 HS Hs Hdom Hshut).
    destruct (waitForStop_still_up _ _ Hup) as (_ & Hsleeps).
    destruct (waitForStop hv stopAttempts (halting r1 w3)) as [r4 out].
    cbn [fst] in Hsleeps. unfold closed. run_unfold.
    rewrite occurrences_app, Hsleeps. unfold halting. cbn [calls].
    rewrite occurrences_app, Hn1. simpl. change stopAttempts with 60%nat. lia.
  - exact (log_grows_occurrences stop_call _ _ CdomDestroy (Stop_logs hv r) eq_refl).
Qed.

(** X15. When [Stop] cannot obtain the domain handle for the shutdown, it
    returns the error wrapped as "getting connection", without a shutdown
    request; the release is deferred before the error is looked at, so
    [closeDomain] is called all the same, on the handles of the failed
    lookup. *)
Theorem Stop_without_handle (r r1 : Run W) (s : state.State) (w2 : W) (e : error) :
  GetState hv (cleared r) = (r1, (s, None)) ->
  s <> state.Stopped ->
  getDomain hv (drv r1) (world r1) = (w2, Some e) ->
  Stop hv r =
    ({| drv := drv r1; world := closeDomain hv w2; files := files r1;
        calls := calls r1 ++ [CgetDomain; CcloseDomain] |},
     Some (ErrWrap e "getting connection")).
Proof.
  intros HS Hs Hdom. unfold Stop. unfold cleared in HS. run_unfold.
  rewrite HS. apply state_eqb_neq in Hs. rewrite Hs. cbn [negb].
  rewrite Hdom. cbn. rewrite <- app_assoc. reflexivity.
Qed.

(** X16. When the hypervisor refuses the shutdown request, [Stop] returns the
    error wrapped as "stopping vm" after releasing the handle, without
    polling or sleeping. *)
Theorem Stop_shutdown_refused (r r1 : Run W) (s : state.State) (w2 w3 : W) (e : error) :
  GetState hv (cleared r) = (r1, (s, None)) ->
  s <> state.Stopped ->
  getDomain hv (drv r1) (world r1) = (w2, None) ->
  dom_Shutdown hv w2 = (w3, Some e) ->
  Stop hv r =
    ({| drv := drv r1; world := closeDomain hv w3; files := files r1;
        calls := calls r1 ++ [CgetDomain; CdomShutdown; CcloseDomain] |},
     Some (ErrWrap e "stopping vm")).
Proof.
  intros HS Hs Hdom Hshut. unfold Stop. unfold cleared in HS. run_unfold.
  rewrite HS. apply state_eqb_neq in Hs. rewrite Hs. cbn [negb].
  rewrite Hdom. cbn [world]. rewrite Hshut. cbn. rewrite <- !app_assoc. reflexivity.
Qed.

(** X17. On every path [Stop] calls nothing but the domain lookup and
    release, the state query, [dom.Shutdown] and the one-second sleep: it
    never falls back on destroying the domain, never undefines anything and
    never looks up the address; it changes no file. *)
Theorem Stop_footprint (r : Run W) (c : Call) :
  stop_call c = false ->
  occurrences c (calls (fst (Stop hv r))) = occurrences c (calls r) /\
  files (fst (Stop hv r)) = files r.
Proof.
  intros Hc. split.
  - exact (log_grows_occurrences stop_call _ _ c (Stop_logs hv r) Hc).
  - exact (Stop_same_files hv r).
Qed.

End MoreStopFacts.

Lemma Stop_succeeds_within_budget_witness :
  let out := Stop (Lab.hv Lab.sound)
               (Lab.run (with_IPAddress "192.168.39.7" Mock.machine)
                  (Lab.host Lab.up 100 3) ∅) in
  snd out = None /\ occurrences (CSleep 1) (calls (fst out)) = 4%nat.
Proof.
  cbv zeta.
  set (hv := Lab.hv Lab.sound).
  set (r := Lab.run (with_IPAddress "192.168.39.7" Mock.machine) (Lab.host Lab.up 100 3) ∅).
  set (r1 := fst (GetState hv (cleared r))).
  set (w2 := fst (getDomain hv (drv r1) (world r1))).
  set (w3 := fst (dom_Shutdown hv w2)).
  destruct (Stop_succeeds_within_budget hv r r1
              (fst (GetState hv (fst (waitForStop hv 4 (halting r1 w3)))))
              state.Running w2 w3 4) as (H1 & H2).
  - reflexivity.
  - discriminate.
  - reflexivity.
  - reflexivity.
  - vm_compute. lia.
  - apply still_upb_correct. vm_compute. reflexivity.
  - vm_compute. reflexivity.
  - split; [exact H1 | exact H2].
Defined.

Lemma Stop_budget_exhausted_witness :
  let out := Stop (Lab.hv Lab.sound)
               (Lab.run Mock.machine (Lab.host Lab.up 100 1000) ∅) in
  snd out = Some (ErrErrorf "Could not stop VM, current state %s" state.Running) /\
  occurrences (CSleep 1) (calls (fst out)) = 60%nat.
Proof.
  cbv zeta.
  set (hv := Lab.hv Lab.sound).
  set (r := Lab.run Mock.machine (Lab.host Lab.up 100 1000) ∅).
  set (r1 := fst (GetState hv (cleared r))).
  set (w2 := fst (getDomain hv (drv r1) (world r1))).
  set (w3 := fst (dom_Shutdown hv w2)).
  destruct (Stop_budget_exhausted hv r r1 state.Running w2 w3) as (H1 & H2 & _).
  - reflexivity.
  - discriminate.
  - reflexivity.
  - reflexivity.
  - apply still_upb_correct. vm_compute. reflexivity.
  - split; [exact H1 | exact H2].
Defined.

Lemma Stop_without_handle_witness :
  let out := Stop (Lab.hv Lab.sound)
               (Lab.run Mock.machine (Lab.host Lab.up 1 0) ∅) in
  snd out = Some (ErrWrap Lab.fault "getting connection") /\
  calls (fst out)
    = [CgetDomain; CdomGetState; CcloseDomain; CgetDomain; CcloseDomain].
Proof.
  cbv zeta.
  rewrite (Stop_without_handle (Lab.hv Lab.sound)
             (Lab.run Mock.machine (Lab.host Lab.up 1 0) ∅)
             _ state.Running (Lab.host Lab.up 0 0) Lab.fault eq_refl);
    [split; reflexivity | discriminate | reflexivity].
Defined.

Lemma Stop_shutdown_refused_witness :
  let out := Stop (Lab.hv (Lab.only CdomShutdown))
               (Lab.run Mock.machine (Lab.host Lab.up 2 0) ∅) in
  snd out = Some (ErrWrap Lab.fault "stopping vm") /\
  occurrences (CSleep 1) (calls (fst out)) = 0%nat.
Proof.
  cbv zeta.
  rewrite (Stop_shutdown_refused (Lab.hv (Lab.only CdomShutdown))
             (Lab.run Mock.machine (Lab.host Lab.up 2 0) ∅)
             _ state.Running (Lab.host Lab.up 0 0) (Lab.host Lab.up 0 0) Lab.fault
             eq_refl);
    [split; reflexivity | discriminate | reflexivity | reflexivity].
Defined.

Lemma Stop_footprint_witness :
  occurrences CdomDestroy
    (calls (fst (Stop (Lab.hv Lab.sound)
                   (Lab.run Mock.machine (Lab.host Lab.up 100 1000) ∅)))) = 0%nat.
Proof.
  rewrite (proj1 (Stop_footprint (Lab.hv Lab.sound)
                    (Lab.run Mock.machine (Lab.host Lab.up 100 1000) ∅)
                    CdomDestroy eq_refl)).
  reflexivity.
Defined.

(** ** The directory walk: failure and repetition *)

Lemma land_lor_9 (m : Z) : Z.land (Z.lor m 9) 9 = 9.
Proof.
  apply Z.bits_inj'. intros i _. rewrite Z.land_spec, Z.lor_spec.
  destruct (Z.testbit m i), (Z.testbit 9 i); reflexivity.
Qed.

Lemma walked_idempotent (info : FileInfo) : walked (walked info) = walked info.
Proof.
  destruct (chmod_permitted info && negb (Z.land (Mode info) 9 =? 1)) eqn:E.
  - assert (Hw : walked info
                 = {| Mode := Z.lor (Mode info) 9; chmod_permitted := true |})
      by (unfold walked; rewrite E; reflexivity).
    rewrite Hw. unfold walked. cbn [Mode chmod_permitted andb].
    rewrite land_lor_9. change (negb (9 =? 1)) with true. cbv iota.
    rewrite <- Z.lor_assoc. reflexivity.
  - assert (Hw : walked info = info) by (unfold walked; rewrite E; reflexivity).
    rewrite !Hw. reflexivity.
Qed.

Section MoreWalkFacts.

Context {W : Type}.

(** The walk runs to its end when every directory on the path exists. *)
Lemma permWalk_ok (dir : path) (r : Run W) :
  (forall p, on_walk p dir -> is_Some (files r !! p)) ->
  snd (permWalk dir r) = None.
Proof.
  revert r. induction dir as [|x parent IH]; intros r Hall; [reflexivity|].
  destruct (Hall (x :: parent)) as [info Hdir];
    [split; [discriminate | reflexivity]|].
  rewrite (permWalk_cons x parent info r Hdir). apply IH.
  intros p [Hnil Hsuf]. rewrite (visit_lookup _ p info r Hdir).
  destruct (decide (p = x :: parent)); [eauto|].
  apply Hall. split; [exact Hnil | apply suffix_cons_r; exact Hsuf].
Qed.

Lemma permWalk_outcome (dir : path) (r : Run W) :
  (snd (permWalk dir r) = None /\
   forall p, on_walk p dir -> is_Some (files r !! p)) \/
  (snd (permWalk dir r) = Some ENOENT /\
   exists p, on_walk p dir /\ files r !! p = None).
Proof.
  revert r. induction dir as [|x parent IH]; intros r.
  - left. split; [reflexivity|].
    intros p [Hnil Hsuf]. apply suffix_nil_inv in Hsuf. contradiction.
  - destruct (files r !! (x :: parent)) as [info|] eqn:Hdir.
    + rewrite (permWalk_cons x parent info r Hdir).
      destruct (IH (visit (x :: parent) info r)) as [[Hend Hall] | [Herr (p & Hon & Hp)]].
      * left. split; [exact Hend|]. intros p [Hnil Hsuf].
        destruct p as [|y p']; [contradiction|].
        apply suffix_cons_inv in Hsuf as [Heq | Hsuf]; [rewrite Heq; eauto|].
        specialize (Hall (y :: p') (conj Hnil Hsuf)).
        rewrite (visit_lookup _ _ info r Hdir) in Hall.
        destruct (decide (y :: p' = x :: parent)) as [Heq | _]; [rewrite Heq; eauto|].
        exact Hall.
      * right. split; [exact Herr|]. exists p. split.
        { destruct Hon as [Hnil Hsuf]. split; [exact Hnil | apply suffix_cons_r; exact Hsuf]. }
        rewrite (visit_lookup _ p info r Hdir) in Hp.
        destruct (decide (p = x :: parent)); [discriminate Hp | exact Hp].
    + right. split; [apply permWalk_missing; exact Hdir|].
      exists (x :: parent). split; [split; [discriminate | reflexivity] | exact Hdir].
Qed.

(** A walk that fails has just called [os.Stat]. *)
Lemma permWalk_error_ends_with_Stat (dir : path) (r : Run W) :
  snd (permWalk dir r) <> None ->
  exists d, last (calls (fst (permWalk dir r))) = Some (CStat d).
Proof.
  revert r. induction dir as [|x parent IH]; intros r Herr.
  - contradiction Herr. reflexivity.
  - destruct (files r !! (x :: parent)) as [info|] eqn:Hdir.
    + rewrite (permWalk_cons x parent info r Hdir) in Herr |- *.
      apply IH. exact Herr.
    + exists (x :: parent). cbn [permWalk]. unfold os_Stat. run_unfold.
      rewrite Hdir. cbn. apply last_snoc.
Qed.

(** X19. Walking twice is walking once: after a walk that ran to its end, a
    second walk over the same path runs to its end as well and leaves the
    file system exactly as the first one left it. *)
Theorem permWalk_idempotent (dir : path) (r : Run W) :
  snd (permWalk dir r) = None ->
  snd (permWalk dir (fst (permWalk dir r))) = None /\
  files (fst (permWalk dir (fst (permWalk dir r)))) = files (fst (permWalk dir r)).
Proof.
  intros Hend.
  assert (Hagain : snd (permWalk dir (fst (permWalk dir r))) = None).
  { apply permWalk_ok. intros p Hon.
    rewrite (permWalk_files dir r Hend p), decide_True by exact Hon.
    destruct (permWalk_outcome dir r)
      as [[_ Hall] | [Herr _]]; [|congruence].
    destruct (Hall p Hon) as [info ->]. eauto. }
  split; [exact Hagain|].
  apply map_eq. intros p.
  rewrite (permWalk_files dir _ Hagain p), (permWalk_files dir r Hend p).
  destruct (decide (on_walk p dir)); [|reflexivity].
  destruct (files r !! p) as [info|]; [|reflexivity].
  cbn. rewrite walked_idempotent. reflexivity.
Qed.

End MoreWalkFacts.

Lemma permWalk_idempotent_witness :
  let once := fst (permWalk ["minikube"; "machines"; "store"]
                     (Mock.run Mock.machine Mock.pristine Mock.foreign_store)) in
  files (fst (permWalk ["minikube"; "machines"; "store"] once)) = files once.
Proof.
  cbv zeta.
  refine (proj2 (permWalk_idempotent ["minikube"; "machines"; "store"]
                   (Mock.run Mock.machine Mock.pristine Mock.foreign_store) _)).
  vm_compute. reflexivity.
Defined.

(** ** Create: composition with Start, early failures, footprint *)

Section MoreCreateFacts.

Context {W : Type} (hv : Collaborators W).

(** X20. When every step before it succeeds, [Create] ends by calling
    [Start]: what [Create] returns is what that [Start] returns, and the
    handle of the new domain is freed after [Start] has returned. *)
Theorem Create_ends_with_Start (r r3 : Run W) (w1 w4 w5 : W) (fs1 : FileSystem) :
  createNetwork hv (drv r) (world r) = (w1, None) ->
  os_MkdirAll hv (ResolveStorePath (drv r)) 493 (files r) = (fs1, None) ->
  permWalk (ResolveStorePath (drv r)) (prepared r w1 fs1) = (r3, None) ->
  MakeDiskImage hv (drv r3) (Boot2DockerURL (drv r)) (DiskSize (drv r)) (world r3)
    = (w4, None) ->
  createDomain hv (drv r3) w4 = (w5, None) ->
  Create hv r =
    (freed hv (fst (Start hv (defined r3 w5))), snd (Start hv (defined r3 w5))) /\
  last (calls (fst (Create hv r))) = Some CdomFree.
Proof.
  intros Hnet Hmk Hwalk Hdisk Hdef.
  assert (Hd : drv r3 = drv r).
  { pose proof (permWalk_same_driver (ResolveStorePath (drv r)) (prepared r w1 fs1)) as H.
    rewrite Hwalk in H. exact H. }
  assert (HC : Create hv r =
    (freed hv (fst (Start hv (defined r3 w5))), snd (Start hv (defined r3 w5)))).
  { unfold Create. unfold prepared in Hwalk. unfold freed, defined. run_unfold.
    rewrite Hnet. cbn [drv world files calls]. rewrite Hmk.
    cbn [drv world files calls]. rewrite <- app_assoc. cbn [app].
    rewrite Hwalk, Hdisk. cbn [drv world files calls]. rewrite Hdef.
    cbn [drv world files calls]. rewrite <- app_assoc. cbn [app].
    rewrite Hd. destruct (Start hv _) as [r6 res]. reflexivity. }
  split; [exact HC|]. rewrite HC. unfold freed. run_unfold. apply last_snoc.
Qed.

(** X21. When the private network cannot be ensured, [Create] returns the
    error wrapped as "creating network" and has done nothing else: no
    directory is made, no file mode changed, no disk or domain created. *)
Theorem Create_without_network (r : Run W) (w1 : W) (e : error) :
  createNetwork hv (drv r) (world r) = (w1, Some e) ->
  Create hv r =
    ({| drv := drv r; world := w1; files := files r;
        calls := calls r ++ [CcreateNetwork] |},
     Some (ErrWrap e "creating network")).
Proof.
  intros Hnet. unfold Create. run_unfold. rewrite Hnet. reflexivity.
Qed.

(** X22. When the walk stops at a missing directory, [Create] returns the
    error of [os.Stat] as it is, without a description of the step, and goes
    no further: the log ends with the failed [os.Stat]. *)
Theorem Create_walk_failure_is_bare (r r3 : Run W) (w1 : W) (fs1 : FileSystem)
    (e : error) :
  createNetwork hv (drv r) (world r) = (w1, None) ->
  os_MkdirAll hv (ResolveStorePath (drv r)) 493 (files r) = (fs1, None) ->
  permWalk (ResolveStorePath (drv r)) (prepared r w1 fs1) = (r3, Some e) ->
  Create hv r = (r3, Some e) /\ e = ENOENT /\
  exists dir, last (calls (fst (Create hv r))) = Some (CStat dir).
Proof.
  intros Hnet Hmk Hwalk.
  assert (HC : Create hv r = (r3, Some e)).
  { unfold Create. unfold prepared in Hwalk. run_unfold.
    rewrite Hnet. cbn [drv world files calls]. rewrite Hmk.
    cbn [drv world files calls]. rewrite <- app_assoc. cbn [app].
    rewrite Hwalk. reflexivity. }
  split; [exact HC|]. split.
  - destruct (permWalk_outcome (ResolveStorePath (drv r))
                (prepared r w1 fs1)) as [[H _] | [H _]];
      rewrite Hwalk in H; cbn in H; congruence.
  - rewrite HC. cbn [fst].
    replace r3 with (fst (permWalk (ResolveStorePath (drv r)) (prepared r w1 fs1)))
      by (rewrite Hwalk; reflexivity).
    apply permWalk_error_ends_with_Stat. rewrite Hwalk. discriminate.
Qed.

(** X23. On every path, failures included, the statements of [Create] and of
    the [Start] it ends with issue no call that takes anything down again: no
    [Destroy], no [Undefine], no [Shutdown], no connection lookup. *)
Theorem Create_never_rolls_back (r : Run W) (c : Call) :
  create_call c = false ->
  occurrences c (calls (fst (Create hv r))) = occurrences c (calls r).
Proof.
  intros Hc.
  exact (log_grows_occurrences create_call _ _ c (Create_logs hv r) Hc).
Qed.

End MoreCreateFacts.

Lemma Create_ends_with_Start_witness :
  let out := Create Mock.hv (Mock.run Mock.machine Mock.pristine ∅) in
  snd out = None /\ last (calls (fst out)) = Some CdomFree.
Proof.
  cbv zeta.
  set (r := Mock.run Mock.machine Mock.pristine ∅).
  set (w1 := Mock.set_network_defined true Mock.pristine).
  set (fs1 := fst (Mock.MkdirAll (ResolveStorePath (drv r)) 493 (files r))).
  set (r3 := fst (permWalk (ResolveStorePath (drv r)) (prepared r w1 fs1))).
  destruct (Create_ends_with_Start Mock.hv r r3 w1 w1
              (Mock.set_domain_defined true w1) fs1) as (HC & Hlast).
  - reflexivity.
  - vm_compute. reflexivity.
  - vm_compute. reflexivity.
  - vm_compute. reflexivity.
  - vm_compute. reflexivity.
  - split; [rewrite HC; vm_compute; reflexivity | exact Hlast].
Defined.

Lemma Create_without_network_witness :
  calls (fst (Create (Lab.hv (Lab.only CcreateNetwork))
                (Lab.run Mock.machine (Lab.host Mock.pristine 1 0) ∅)))
  = [CcreateNetwork].
Proof.
  rewrite (Create_without_network (Lab.hv (Lab.only CcreateNetwork))
             (Lab.run Mock.machine (Lab.host Mock.pristine 1 0) ∅)
             (Lab.host Mock.pristine 1 0) Lab.fault eq_refl).
  reflexivity.
Defined.

Lemma Create_walk_failure_is_bare_witness :
  let out := Create (Lab.with_os_MkdirAll Lab.idle_MkdirAll Mock.hv)
               (Mock.run Mock.machine Mock.pristine ∅) in
  snd out = Some ENOENT /\
  calls (fst out)
    = [CcreateNetwork; CMkdirAll ["minikube"; "machines"; "store"] 493;
       CStat ["minikube"; "machines"; "store"]].
Proof.
  cbv zeta.
  set (hv := Lab.with_os_MkdirAll Lab.idle_MkdirAll Mock.hv).
  set (r := Mock.run Mock.machine Mock.pristine ∅).
  set (w1 := Mock.set_network_defined true Mock.pristine).
  destruct (Create_walk_failure_is_bare hv r
              (fst (permWalk (ResolveStorePath (drv r)) (prepared r w1 ∅)))
              w1 ∅ ENOENT) as (HC & _).
  - reflexivity.
  - reflexivity.
  - vm_compute. reflexivity.
  - rewrite HC. split; vm_compute; reflexivity.
Defined.

Lemma Create_never_rolls_back_witness :
  let w := {| Mock.connect_ok := true; Mock.network_defined := false;
              Mock.domain_defined := false; Mock.native := libvirt.DOMAIN_NOSTATE;
              Mock.boots_to := libvirt.DOMAIN_RUNNING; Mock.lease_after := 2;
              Mock.lease := "192.168.39.7"; Mock.disk_ok := true;
              Mock.ssh_ok := false |} in
  occurrences CdomUndefine (calls (fst (Create Mock.hv (Mock.run Mock.machine w ∅))))
  = 0%nat.
Proof.
  cbv zeta.
  match goal with
  | |- context [Create Mock.hv ?r] =>
      rewrite (Create_never_rolls_back Mock.hv r CdomUndefine eq_refl)
  end.
  reflexivity.
Defined.

(** ** Remove: what it calls, and in which order *)

Section MoreRemoveFacts.

Context {W : Type} (hv : Collaborators W).

(** X24. With the connection open, [Remove] looks up the network, then the
    domain, and closes the connection last.  Each one whose lookup handed
    back a handle it first destroys and then undefines, the second whatever
    the first returned; one whose lookup handed back nil it leaves alone.
    The driver record and the files stay as they are. *)
Theorem Remove_takes_down_in_order (r : Run W) (w1 w2 w5 : W)
    (network dom : bool) (nerr derr : option error) :
  getConnection hv (world r) = (w1, None) ->
  conn_LookupNetworkByName hv (PrivateNetwork (drv r)) w1 = (w2, (network, nerr)) ->
  conn_LookupDomainByName hv (MachineName (drv r))
    (if network then fst (net_Undefine hv (fst (net_Destroy hv w2))) else w2)
    = (w5, (dom, derr)) ->
  Remove hv r =
    ({| drv := drv r;
        world := conn_Close hv
                   (if dom then fst (dom_Undefine hv (fst (dom_Destroy hv w5))) else w5);
        files := files r;
        calls := calls r
                 ++ [CgetConnection; CLookupNetworkByName (PrivateNetwork (drv r))]
                 ++ (if network then [CnetDestroy; CnetUndefine] else [])
                 ++ [CLookupDomainByName (MachineName (drv r))]
                 ++ (if dom then [CdomDestroy; CdomUndefine] else [])
                 ++ [CconnClose] |},
     None).
Proof.
  intros Hconn Hnet Hdom.
  unfold Remove. run_unfold. rewrite Hconn. cbn [drv world files calls].
  rewrite Hnet. cbn [drv world files calls fst snd].
  destruct network; cbn [drv world files calls].
  - destruct (net_Destroy hv w2) as [w3 ?]. cbn [drv world files calls fst] in *.
    destruct (net_Undefine hv w3) as [w4 ?]. cbn [drv world files calls fst] in *.
    rewrite Hdom. cbn [drv world files calls fst snd].
    destruct dom; cbn [drv world files calls].
    + destruct (dom_Destroy hv w5) as [w6 ?]. cbn [drv world files calls fst].
      destruct (dom_Undefine hv w6) as [w7 ?]. cbn.
      rewrite <- !app_assoc. reflexivity.
    + cbn. rewrite <- !app_assoc. reflexivity.
  - rewrite Hdom. cbn [drv world files calls fst snd].
    destruct dom; cbn [drv world files calls].
    + destruct (dom_Destroy hv w5) as [w6 ?]. cbn [drv world files calls fst].
      destruct (dom_Undefine hv w6) as [w7 ?]. cbn.
      rewrite <- !app_assoc. reflexivity.
    + cbn. rewrite <- !app_assoc. reflexivity.
Qed.

(** X25. When the connection cannot be opened, [Remove] does nothing else:
    no lookup, nothing torn down, and no [Close] of the connection it did not
    get. *)
Theorem Remove_without_connection (r : Run W) (w1 : W) (e : error) :
  getConnection hv (world r) = (w1, Some e) ->
  Remove hv r =
    ({| drv := drv r; world := w1; files := files r;
        calls := calls r ++ [CgetConnection] |},
     Some (ErrWrap e "getting connection")).
Proof.
  intros Hconn. unfold Remove. run_unfold. rewrite Hconn. reflexivity.
Qed.

End MoreRemoveFacts.

(** [Remove] on a simulated host whose network cannot be destroyed: the
    network is undefined all the same, and the domain after it. *)
Lemma Remove_takes_down_in_order_witness :
  calls (fst (Remove (Lab.hv (Lab.only CnetDestroy))
                (Lab.run Mock.machine (Lab.host Lab.up 1 0) ∅)))
  = [CgetConnection; CLookupNetworkByName "minikube-net"; CnetDestroy; CnetUndefine;
     CLookupDomainByName "minikube"; CdomDestroy; CdomUndefine; CconnClose].
Proof.
  rewrite (Remove_takes_down_in_order (Lab.hv (Lab.only CnetDestroy))
             (Lab.run Mock.machine (Lab.host Lab.up 1 0) ∅)
             (Lab.host Lab.up 1 0) (Lab.host Lab.up 1 0)
             (Lab.host (Mock.set_network_defined false Lab.up) 1 0)
             true true None None eq_refl eq_refl eq_refl).
  reflexivity.
Defined.

Lemma Remove_without_connection_witness :
  calls (fst (Remove (Lab.hv Lab.sound)
                (Lab.run Mock.machine (Lab.host Lab.offline 1 0) ∅)))
  = [CgetConnection].
Proof.
  rewrite (Remove_without_connection (Lab.hv Lab.sound)
             (Lab.run Mock.machine (Lab.host Lab.offline 1 0) ∅)
             (Lab.host Lab.offline 1 0) Mock.unreachable eq_refl).
  reflexivity.
Defined.

(** ** Configuration *)

(** X26. [GetSSHPort] never returns 0 and [GetSSHUsername] never returns the
    empty string: a missing value is replaced by 22, respectively "docker",
    and the replacement is stored in the driver, so that a second call
    returns the same value and changes nothing; a value that is present is
    returned as it is and the driver is not changed. *)
Theorem SSH_accessors_default_once (d : Config.Driver) :
  let '(d1, (port, err)) := Config.GetSSHPort d in
  let '(d2, user) := Config.GetSSHUsername d in
  err = None /\ port <> 0 /\ Config.SSHPort d1 = port /\
  Config.GetSSHPort d1 = (d1, (port, None)) /\
  ((Config.SSHPort d = 0 /\ port = 22) \/ (d1 = d /\ port = Config.SSHPort d)) /\
  user <> "" /\ Config.SSHUser d2 = user /\
  Config.GetSSHUsername d2 = (d2, user) /\
  ((Config.SSHUser d = "" /\ user = "docker") \/ (d2 = d /\ user = Config.SSHUser d)).
Proof.
  unfold Config.GetSSHPort, Config.GetSSHUsername.
  destruct (Z.eqb_spec (Config.SSHPort d) 0) as [Hp | Hp];
    destruct (String.eqb_spec (Config.SSHUser d) "") as [Hu | Hu];
    cbn [Config.with_SSHPort Config.with_SSHUser Config.SSHPort Config.SSHUser
         Z.eqb String.eqb Ascii.eqb Bool.eqb];
    repeat match goal with
    | |- context [Config.SSHPort d =? 0] =>
        rewrite (proj2 (Z.eqb_neq (Config.SSHPort d) 0) Hp)
    | |- context [String.eqb (Config.SSHUser d) ""] =>
        rewrite (proj2 (String.eqb_neq (Config.SSHUser d) "") Hu)
    end;
    repeat split; auto; discriminate.
Qed.

(** X27. [SetConfigFromFlags] depends on no flag other than kvm-memory,
    kvm-disk-size, kvm-cpu-count, kvm-network, kvm-boot2docker-url and
    kvm-ssh-user.  Each of these is declared by [GetCreateFlags]; the
    declared flags kvm-cache-mode and kvm-io-mode are never read. *)
Theorem SetConfigFromFlags_reads_six_flags (d : Config.Driver)
    (f g : Config.DriverOptions) :
  Config.agree_on Config.flagsRead f g ->
  Config.SetConfigFromFlags d f = Config.SetConfigFromFlags d g /\
  incl Config.flagsRead (map Config.flagName Config.GetCreateFlags) /\
  In "kvm-cache-mode" (map Config.flagName Config.GetCreateFlags) /\
  In "kvm-io-mode" (map Config.flagName Config.GetCreateFlags) /\
  ~ In "kvm-cache-mode" Config.flagsRead /\
  ~ In "kvm-io-mode" Config.flagsRead.
Proof.
  intros Hagree.
  assert (Hin : forall name, In name Config.flagsRead ->
            Config.Int f name = Config.Int g name /\
            Config.String f name = Config.String g name) by exact Hagree.
  split.
  - unfold Config.SetConfigFromFlags. cbn.
    destruct (Hin "kvm-memory") as [-> _]; [cbn; tauto|].
    destruct (Hin "kvm-disk-size") as [-> _]; [cbn; tauto|].
    destruct (Hin "kvm-cpu-count") as [-> _]; [cbn; tauto|].
    destruct (Hin "kvm-network") as [_ ->]; [cbn; tauto|].
    destruct (Hin "kvm-boot2docker-url") as [_ ->]; [cbn; tauto|].
    destruct (Hin "kvm-ssh-user") as [_ ->]; [cbn; tauto|].
    reflexivity.
  - split.
    { intros name H. cbn in H |- *.
      repeat destruct H as [<- | H]; try contradiction; tauto. }
    cbn. repeat split; try tauto;
      intros H; repeat destruct H as [H | H]; try discriminate H; contradiction.
Qed.

(** Two command lines that differ in the cache mode only. *)
Lemma SetConfigFromFlags_reads_six_flags_witness :
  Config.SetConfigFromFlags (Config.NewDriver "minikube" ["store"]) Config.defaultOptions
  = Config.SetConfigFromFlags (Config.NewDriver "minikube" ["store"])
      {| Config.Int := Config.Int Config.defaultOptions;
         Config.String name :=
           if String.eqb name "kvm-cache-mode" then "unsafe"
           else Config.String Config.defaultOptions name |}.
Proof.
  refine (proj1 (SetConfigFromFlags_reads_six_flags _ _ _ _)).
  intros name Hin. cbn in Hin.
  repeat destruct Hin as [<- | Hin]; try contradiction; split; reflexivity.
Defined.

